(** * The medical chat: conversation state and completion relay

    A shallow embedding of the two source files of the repository:

    - [src/components/chat/MedicalChat.tsx], the React component that owns the
      conversation ([messages]), the input box ([inputMessage]) and the
      in-flight guard ([isLoading]), with its handlers [sendMessage] and
      [clearChat];
    - the API route ([handler]) that relays one user message and a bounded
      history to the remote completion service.

    JavaScript strings are sequences of UTF-16 code units; asynchronous
    functions are programs over the effects they perform, and an [await] is
    the point where such a program waits for its environment. *)

From Stdlib Require Import NArith ZArith QArith String Ascii List Bool Lia.
From Stdlib Require Import DecimalN.
Import ListNotations.

Local Open Scope N_scope.

(* ===================================================================== *)
(** ** JavaScript strings, truthiness, [trim], [includes], [slice] *)
(* ===================================================================== *)

Module JS.

(** A string value: its UTF-16 code units. *)
Definition jsstring : Type := list N.

(** Source literals are kept as written, in UTF-8; [js] turns one into the
    code units the engine holds.  A code point above U+FFFF becomes a
    surrogate pair; a truncated sequence becomes U+FFFD. *)
Definition utf16 (cp : N) : jsstring :=
  if cp <? 65536 then [cp]
  else [55296 + (cp - 65536) / 1024; 56320 + (cp - 65536) mod 1024].

Definition cont (a : ascii) : N := N_of_ascii a mod 64.

Fixpoint js (s : string) : jsstring :=
  match s with
  | EmptyString => []
  | String a s1 =>
      let b := N_of_ascii a in
      if b <? 128 then b :: js s1
      else if b <? 224 then
        match s1 with
        | String a1 s2 => utf16 ((b mod 32) * 64 + cont a1) ++ js s2
        | _ => [65533]
        end
      else if b <? 240 then
        match s1 with
        | String a1 (String a2 s3) =>
            utf16 (((b mod 16) * 64 + cont a1) * 64 + cont a2) ++ js s3
        | _ => [65533]
        end
      else
        match s1 with
        | String a1 (String a2 (String a3 s4)) =>
            utf16 ((((b mod 8) * 64 + cont a1) * 64 + cont a2) * 64 + cont a3)
              ++ js s4
        | _ => [65533]
        end
  end.

(** [a === b] on strings. *)
Fixpoint str_eqb (a b : jsstring) : bool :=
  match a, b with
  | [], [] => true
  | x :: a', y :: b' => (x =? y) && str_eqb a' b'
  | _, _ => false
  end.

(** Truthiness: a string is falsy exactly when it is empty; [undefined]
    (an absent value) is falsy. *)
Definition truthy (s : jsstring) : bool :=
  match s with [] => false | _ :: _ => true end.

Definition truthy_opt (v : option jsstring) : bool :=
  match v with Some s => truthy s | None => false end.

(** [a || b] where [a] may be [undefined]. *)
Definition or_else (a : option jsstring) (b : jsstring) : jsstring :=
  match a with
  | Some s => if truthy s then s else b
  | None => b
  end.

(** ECMAScript WhiteSpace and LineTerminator code points, the ones
    [String.prototype.trim] strips. *)
Definition is_white_space (c : N) : bool :=
  (c =? 9) || (c =? 10) || (c =? 11) || (c =? 12) || (c =? 13) || (c =? 32)
  || (c =? 160) || (c =? 5760) || ((8192 <=? c) && (c <=? 8202))
  || (c =? 8232) || (c =? 8233) || (c =? 8239) || (c =? 8287)
  || (c =? 12288) || (c =? 65279).

Fixpoint trimStart (s : jsstring) : jsstring :=
  match s with
  | [] => []
  | c :: s' => if is_white_space c then trimStart s' else s
  end.

Definition trimEnd (s : jsstring) : jsstring := rev (trimStart (rev s)).

Definition trim (s : jsstring) : jsstring := trimEnd (trimStart s).

(** [s.includes(p)]. *)
Fixpoint startsWith (s p : jsstring) : bool :=
  match p, s with
  | [], _ => true
  | x :: p', y :: s' => (x =? y) && startsWith s' p'
  | _ :: _, [] => false
  end.

Fixpoint includes (s p : jsstring) : bool :=
  startsWith s p
  || match s with
     | [] => false
     | _ :: s' => includes s' p
     end.

(** [l.slice(start)]: a negative [start] counts from the end, and the
    resulting index is clamped to the array. *)
Definition slice {A : Type} (start : Z) (l : list A) : list A :=
  let len := Z.of_nat (length l) in
  let k := if (start <? 0)%Z then Z.max (len + start) 0 else Z.min start len in
  skipn (Z.to_nat k) l.

(** [n.toString()] for a non-negative integer: its decimal digits. *)
Fixpoint digits (d : Decimal.uint) : jsstring :=
  match d with
  | Decimal.Nil => []
  | Decimal.D0 d' => 48 :: digits d'
  | Decimal.D1 d' => 49 :: digits d'
  | Decimal.D2 d' => 50 :: digits d'
  | Decimal.D3 d' => 51 :: digits d'
  | Decimal.D4 d' => 52 :: digits d'
  | Decimal.D5 d' => 53 :: digits d'
  | Decimal.D6 d' => 54 :: digits d'
  | Decimal.D7 d' => 55 :: digits d'
  | Decimal.D8 d' => 56 :: digits d'
  | Decimal.D9 d' => 57 :: digits d'
  end.

Definition toString (n : N) : jsstring := digits (N.to_uint n).

(** What a [throw] carries: an [Error] object with its message, or any
    other value. *)
Inductive Thrown : Type :=
| ErrorObj (message : jsstring)
| NonError.

(** The completion of an evaluation that may throw. *)
Inductive Outcome (A : Type) : Type :=
| Normal (a : A)
| Throw (e : Thrown).
Arguments Normal {A} a.
Arguments Throw {A} e.

End JS.
Import JS.


(* ===================================================================== *)
(** ** Asynchronous functions as programs over their effects *)
(* ===================================================================== *)

Module Async.

Section Programs.

Context {E : Type -> Type}.

(** A program either returns, or performs an effect [e] whose answer the
    environment supplies to the rest of the program. *)
Inductive Prog (R : Type) : Type :=
| Ret (r : R)
| Vis (X : Type) (e : E X) (k : X -> Prog R).

Arguments Ret {R} r.
Arguments Vis {R X} e k.

Fixpoint bind {A B : Type} (p : Prog A) (f : A -> Prog B) : Prog B :=
  match p with
  | Ret a => f a
  | Vis e k => Vis e (fun x => bind (k x) f)
  end.

Definition trigger {X : Type} (e : E X) : Prog X := Vis e Ret.

(** Sequencing inside a [try] block: a thrown value skips the rest. *)
Definition bind_try {A B : Type} (p : Prog (Outcome A))
    (f : A -> Prog (Outcome B)) : Prog (Outcome B) :=
  bind p (fun o => match o with
                   | Normal a => f a
                   | Throw e => Ret (Throw e)
                   end).

(** [try { body } catch (error) { handler }], the handler ending the
    function. *)
Definition try_catch {A : Type} (body : Prog (Outcome A))
    (handler : Thrown -> Prog A) : Prog A :=
  bind body (fun o => match o with
                      | Normal a => Ret a
                      | Throw e => handler e
                      end).

(** [try { body } catch (error) { handler } finally { fin }]. *)
Definition try_catch_finally {A : Type} (body : Prog (Outcome A))
    (handler : Thrown -> Prog (Outcome A)) (fin : Prog unit)
    : Prog (Outcome A) :=
  bind (bind body (fun o => match o with
                            | Normal a => Ret (Normal a)
                            | Throw e => handler e
                            end))
       (fun o => bind fin (fun _ => Ret o)).

(** Running a program to its end against an environment that answers every
    effect and keeps a state. *)
Fixpoint interp {S R : Type} (h : forall X, E X -> S -> X * S)
    (p : Prog R) (s : S) : R * S :=
  match p with
  | Ret r => (r, s)
  | Vis e k => let (x, s') := h _ e s in interp h (k x) s'
  end.

(** Running a program up to its next [await]: [h] answers the synchronous
    effects and gives [None] on an effect the program has to wait for.  The
    result is the suspended program, or [Ret] when it has finished. *)
Fixpoint advance {S R : Type} (h : forall X, E X -> S -> option (X * S))
    (p : Prog R) (s : S) : Prog R * S :=
  match p with
  | Ret r => (Ret r, s)
  | Vis e k =>
      match h _ e s with
      | Some (x, s') => advance h (k x) s'
      | None => (Vis e k, s)
      end
  end.

End Programs.

Arguments Prog E R : clear implicits.
Arguments Ret {E R} r.
Arguments Vis {E R X} e k.

Declare Scope prog_scope.
Delimit Scope prog_scope with prog.
Notation "x <- p ;; k" := (bind p (fun x => k))
  (at level 61, p at next level, right associativity) : prog_scope.
Notation "p ;; k" := (bind p (fun _ => k))
  (at level 61, right associativity) : prog_scope.
Notation "x <-! p ;; k" := (bind_try p (fun x => k))
  (at level 61, p at next level, right associativity) : prog_scope.

End Async.
Import Async.
Local Open Scope prog_scope.

(* ===================================================================== *)
(** ** The completion relay: the API route [handler] *)
(* ===================================================================== *)

Module Relay.

(** One prompt turn, [{ role, content }]. *)
Record ChatMessage : Type := { role : jsstring; content : jsstring }.

(** The argument of [openai.chat.completions.create]. *)
Record CompletionParams : Type := {
  model : jsstring;
  messages : list ChatMessage;
  max_tokens : N;
  temperature : Q;
  presence_penalty : Q;
  frequency_penalty : Q
}.

(** What the remote service answers: [choices[i].message.content] may be
    missing at each level, and [usage] is optional. *)
Record ChoiceMessage : Type := { choice_content : option jsstring }.
Record Choice : Type := { choice_message : option ChoiceMessage }.
Record Usage : Type := {
  prompt_tokens : N;
  completion_tokens : N;
  total_tokens : N
}.
Record ChatCompletion : Type := {
  choices : list Choice;
  usage : option Usage
}.

(** The session of next-auth; the handler only tests it for presence. *)
Record Session : Type := { session_user : jsstring }.

(** The request, as far as the handler reads it: [req.method] and the two
    fields of the JSON body, each of which may be absent.  This is the body
    at the shape the component sends; the handler on a body that is [null],
    or whose history is [null], not an array or has a [null] entry, is
    [Untyped.handler] below. *)
Record RequestBody : Type := {
  message : option jsstring;
  conversationHistory : option (list ChatMessage)
}.
Record ApiRequest : Type := { method : jsstring; body : RequestBody }.

(** [res.status(code).json({ message, usage })]; [usage] is absent from the
    error bodies. *)
Record ResponseBody : Type := {
  res_message : jsstring;
  res_usage : option Usage
}.
Record ApiResponse : Type := { status : Z; json : ResponseBody }.

(** [process.env], as far as it is read. *)
Record ProcessEnv : Type := { OPENAI_API_KEY : option jsstring }.

(** The effects of the handler. *)
Inductive ServerE : Type -> Type :=
| GetServerSession : ServerE (option Session)
| CreateCompletion (params : CompletionParams) : ServerE (Outcome ChatCompletion)
| ConsoleError (label : jsstring) (error : Thrown) : ServerE unit.

(** The fixed system instruction. *)
Definition dq : string := String (ascii_of_nat 34) EmptyString.

Definition MEDICAL_SYSTEM_PROMPT : jsstring :=
  js ("You are a compassionate and knowledgeable medical AI assistant. Your responses should be visually appealing, well-structured, and easy to read while providing helpful health information.

FORMATTING GUIDELINES:
- Use emojis strategically to make responses more engaging and visual
- Structure information with clear headings and bullet points
- Use numbered lists for step-by-step instructions
- Keep formatting clean and consistent - avoid extra spaces or broken lines
- Make important information stand out with **bold text**
- Use warm, empathetic language with appropriate medical terminology
- Ensure proper spacing between sections

RESPONSE STRUCTURE:
1. **Empathetic Opening** 🤗 - Acknowledge their concern with care
2. **Main Information** 📋 - Provide helpful, accurate medical information
3. **Actionable Steps** ✅ - Clear, numbered recommendations
4. **When to Seek Help** 🚨 - Clear guidance on medical consultation
5. **Supportive Closing** 💙 - Encouraging and caring conclusion

VISUAL ELEMENTS TO USE:
- 🩺 for medical advice
- 💊 for medication information
- 🏥 for hospital/doctor visits
- ⚠️ for warnings
- ✅ for recommendations
- 🌡️ for fever/temperature
- 💧 for hydration
- 😴 for rest
- 🍎 for nutrition
- 🏃‍♂️ for exercise
- 🧠 for mental health
- ❤️ for heart health
- 📞 for emergency contacts

MEDICAL GUIDELINES:
- Provide evidence-based health information
- Always emphasize this is general information only
- Recommend professional medical consultation for serious concerns
- Be empathetic and supportive
- Ask clarifying questions when helpful
- Suggest emergency care when appropriate
- Include appropriate medical disclaimers
- Never provide specific diagnoses

FORMATTING RULES:
- Use single line breaks within sections, double line breaks between sections
- For bullet points, use simple " ++ dq ++ "• " ++ dq ++ " format (bullet + space)
- For numbered lists, use " ++ dq ++ "1. " ++ dq ++ " format (number + period + space)
- Keep bold text clean: **Text** (no extra spaces inside)
- Place emojis at the start of headings or sections for visual appeal

TONE: Caring, professional, informative, and visually engaging while maintaining medical accuracy and safety.").

Definition send (code : Z) (text : string) : ApiResponse :=
  {| status := code; json := {| res_message := js text; res_usage := None |} |}.

(** [completion.choices[0]?.message?.content]. *)
Definition first_content (completion : ChatCompletion) : option jsstring :=
  match choices completion with
  | [] => None
  | c :: _ =>
      match choice_message c with
      | None => None
      | Some m => choice_content m
      end
  end.

(** The prompt of lines 85-92. *)
Definition prompt (message : jsstring) (conversationHistory : list ChatMessage)
    : list ChatMessage :=
  {| role := js "system"; content := MEDICAL_SYSTEM_PROMPT |}
  :: map (fun msg => {| role := role msg; content := content msg |})
         conversationHistory
  ++ [ {| role := js "user"; content := message |} ].

(** The [try] block of the handler. *)
Definition handler_try (message : jsstring)
    (conversationHistory : list ChatMessage) : Prog ServerE (Outcome ApiResponse) :=
  let messages := prompt message conversationHistory in
  completion <-! trigger (CreateCompletion {|
      model := js "gpt-4o";
      messages := messages;
      max_tokens := 1000;
      temperature := 7 # 10;
      presence_penalty := 1 # 10;
      frequency_penalty := 1 # 10 |}) ;;
  match first_content completion with
  | Some aiResponse =>
      if negb (truthy aiResponse)
      then Ret (Throw (ErrorObj (js "No response from OpenAI")))
      else Ret (Normal {| status := 200;
                          json := {| res_message := aiResponse;
                                     res_usage := usage completion |} |})
  | None => Ret (Throw (ErrorObj (js "No response from OpenAI")))
  end.

(** The [catch] block of the handler. *)
Definition handler_catch (error : Thrown) : Prog ServerE ApiResponse :=
  trigger (ConsoleError (js "OpenAI API error:") error) ;;
  match error with
  | ErrorObj msg =>
      if includes msg (js "API key")
      then Ret (send 401 "Invalid OpenAI API key")
      else if includes msg (js "quota")
      then Ret (send 429 "API quota exceeded")
      else Ret (send 500 "Failed to get AI response. Please try again later.")
  | NonError =>
      Ret (send 500 "Failed to get AI response. Please try again later.")
  end.

Definition handler (env : ProcessEnv) (req : ApiRequest)
    : Prog ServerE ApiResponse :=
  if negb (str_eqb (method req) (js "POST"))
  then Ret (send 405 "Method not allowed")
  else
    session <- trigger GetServerSession ;;
    match session with
    | None => Ret (send 401 "Unauthorized")
    | Some _ =>
        let conversationHistory :=
          match conversationHistory (body req) with
          | Some history => history
          | None => []
          end in
        match message (body req) with
        | None => Ret (send 400 "Message is required")
        | Some message =>
            if negb (truthy message)
            then Ret (send 400 "Message is required")
            else if negb (truthy_opt (OPENAI_API_KEY env))
            then Ret (send 500 "OpenAI API key not configured")
            else try_catch (handler_try message conversationHistory)
                           handler_catch
        end
    end.

(** The surroundings of one request: the session that next-auth finds, and
    what the remote service does with a call.  Running the handler gives the
    response it sends and, in order, the effects it performed. *)
Record Remote : Type := {
  session_of : option Session;
  create : CompletionParams -> Outcome ChatCompletion
}.

Inductive Observed : Type :=
| SessionLookup
| RemoteCall (params : CompletionParams)
| Logged (label : jsstring) (error : Thrown).

Definition answer (w : Remote) (X : Type) (e : ServerE X)
    (seen : list Observed) : X * list Observed :=
  match e in ServerE X return X * list Observed with
  | GetServerSession => (session_of w, seen ++ [SessionLookup])
  | CreateCompletion params => (create w params, seen ++ [RemoteCall params])
  | ConsoleError label error => (tt, seen ++ [Logged label error])
  end.

Definition run {R : Type} (w : Remote) (p : Prog ServerE R) : R * list Observed :=
  interp (answer w) p [].

Definition is_remote_call (o : Observed) : bool :=
  match o with RemoteCall _ => true | _ => false end.

End Relay.

(* ===================================================================== *)
(** ** The conversation state manager: the component [MedicalChat] *)
(* ===================================================================== *)

Module Chat.

Inductive Role : Type := user | assistant.

(** The string a role is at run time, and on the wire. *)
Definition role_name (r : Role) : jsstring :=
  match r with
  | user => js "user"
  | assistant => js "assistant"
  end.

(** [interface Message]; a [Date] is its time value in milliseconds. *)
Record Message : Type := {
  id : jsstring;
  role : Role;
  content : jsstring;
  timestamp : N
}.

(** The three [useState] cells of the component. *)
Record State : Type := {
  messages : list Message;
  inputMessage : jsstring;
  isLoading : bool
}.

(** A state setter takes the next value or a function of the current one. *)
Inductive SetStateAction (A : Type) : Type :=
| Value (v : A)
| Updater (f : A -> A).
Arguments Value {A} v.
Arguments Updater {A} f.

Definition apply_action {A : Type} (a : SetStateAction A) (prev : A) : A :=
  match a with
  | Value v => v
  | Updater f => f prev
  end.

(** The second argument of [fetch]; [body] is the object handed to
    [JSON.stringify], which is the body the route reads back. *)
Record RequestInit : Type := {
  method : jsstring;
  headers : list (jsstring * jsstring);
  body : Relay.RequestBody
}.

(** The [Response] of [fetch]: its status, and what [response.json()]
    settles to.  A body that parses is read at the type the route sends. *)
Record Response : Type := {
  status : Z;
  parsed : Outcome Relay.ResponseBody
}.

(** [response.ok]: the status is in the range 200-299. *)
Definition ok (response : Response) : bool :=
  ((200 <=? status response) && (status response <=? 299))%Z.

(** The effects of the component's handlers.  [Fetch] and [ResponseJson] are
    awaited. *)
Inductive ClientE : Type -> Type :=
| DateNow : ClientE N
| NewDate : ClientE N
| SetMessages (a : SetStateAction (list Message)) : ClientE unit
| SetInputMessage (a : SetStateAction jsstring) : ClientE unit
| SetIsLoading (a : SetStateAction bool) : ClientE unit
| Fetch (url : jsstring) (init : RequestInit) : ClientE (Outcome Response)
| ResponseJson (response : Response) : ClientE (Outcome Relay.ResponseBody)
| ConsoleError (label : jsstring) (error : Thrown) : ClientE unit.

Definition WELCOME : jsstring :=
  js "**Welcome to Your AI Medical Assistant!** 🤗

I'm here to help you with health-related questions and provide general medical guidance. Here's what I can assist you with:

**🩺 What I Can Help With:**
• General health information and wellness tips
• Symptom guidance and when to seek care
• Nutrition and exercise recommendations  
• Mental health and stress management
• Medication information (general)
• Preventive care suggestions

**⚠️ Important Reminder:**
I provide general information only and cannot replace professional medical advice. Always consult healthcare professionals for personalized care.

**🚨 For Emergencies:** Call your local emergency services immediately.

How can I help you today? Feel free to ask a question or use the quick action buttons below! 💙".

Definition WELCOME_BACK : jsstring :=
  js "**Welcome Back!** 🤗

I'm your AI medical assistant, ready to help with your health questions. How can I assist you today?".

Definition APOLOGY : jsstring :=
  js "I apologize, but I'm having trouble responding right now. Please try again in a moment.".

(** The initial values of the state cells; [date] is the [new Date()] of the
    first render. *)
Definition initialState (date : N) : State :=
  {| messages := [ {| id := js "1"; role := assistant; content := WELCOME;
                      timestamp := date |} ];
     inputMessage := [];
     isLoading := false |}.

(** [{ role: msg.role, content: msg.content }]. *)
Definition project (msg : Message) : Relay.ChatMessage :=
  {| Relay.role := role_name (role msg); Relay.content := content msg |}.

(** [sendMessage], closed over the state [c] of the render that created it. *)
Definition sendMessage (c : State) (messageText : option jsstring)
    : Prog ClientE (Outcome unit) :=
  let textToSend := or_else messageText (inputMessage c) in
  if negb (truthy (trim textToSend)) || isLoading c then Ret (Normal tt)
  else
    now <- trigger DateNow ;;
    date <- trigger NewDate ;;
    let userMessage :=
      {| id := toString now; role := user; content := textToSend;
         timestamp := date |} in
    trigger (SetMessages (Updater (fun prev => prev ++ [userMessage]))) ;;
    trigger (SetInputMessage (Value [])) ;;
    trigger (SetIsLoading (Value true)) ;;
    try_catch_finally
      (let conversationHistory := map project (slice (-10) (messages c)) in
       response <-! trigger (Fetch (js "/api/chat/medical") {|
           method := js "POST";
           headers := [ (js "Content-Type", js "application/json") ];
           body := {| Relay.message := Some textToSend;
                      Relay.conversationHistory := Some conversationHistory |}
         |}) ;;
       data <-! trigger (ResponseJson response) ;;
       if negb (ok response)
       then Ret (Throw (ErrorObj (or_else (Some (Relay.res_message data))
                                          (js "Failed to get response"))))
       else
         now <- trigger DateNow ;;
         date <- trigger NewDate ;;
         let aiMessage :=
           {| id := toString (now + 1); role := assistant;
              content := Relay.res_message data; timestamp := date |} in
         trigger (SetMessages (Updater (fun prev => prev ++ [aiMessage]))) ;;
         Ret (Normal tt))
      (fun error =>
         trigger (ConsoleError (js "Chat error:") error) ;;
         now <- trigger DateNow ;;
         date <- trigger NewDate ;;
         let errorMessage :=
           {| id := toString (now + 1); role := assistant;
              content := APOLOGY; timestamp := date |} in
         trigger (SetMessages (Updater (fun prev => prev ++ [errorMessage]))) ;;
         Ret (Normal tt))
      (trigger (SetIsLoading (Value false))).

Definition clearChat : Prog ClientE unit :=
  date <- trigger NewDate ;;
  trigger (SetMessages (Value [ {| id := js "1"; role := assistant;
                                   content := WELCOME_BACK;
                                   timestamp := date |} ])).

(** *** Running the handlers

    A world holds the state cells, how often the clock has been read, what
    was written to the console and which requests were sent.  The clock is a
    sequence of readings.  React renders again after every batch of state
    updates, so an event reaches the handlers of the latest render: a
    handler started in world [w] is closed over [ui w].  A state setter acts
    on the cells as they are when it runs, not on the closure. *)
Record World : Type := {
  ui : State;
  ticks : nat;
  console : list (jsstring * Thrown);
  requests : list (jsstring * RequestInit)
}.

Definition with_ui (w : World) (s : State) : World :=
  {| ui := s; ticks := ticks w; console := console w; requests := requests w |}.

Definition set_messages (a : SetStateAction (list Message)) (w : World) : World :=
  with_ui w {| messages := apply_action a (messages (ui w));
               inputMessage := inputMessage (ui w);
               isLoading := isLoading (ui w) |}.

Definition set_inputMessage (a : SetStateAction jsstring) (w : World) : World :=
  with_ui w {| messages := messages (ui w);
               inputMessage := apply_action a (inputMessage (ui w));
               isLoading := isLoading (ui w) |}.

Definition set_isLoading (a : SetStateAction bool) (w : World) : World :=
  with_ui w {| messages := messages (ui w);
               inputMessage := inputMessage (ui w);
               isLoading := apply_action a (isLoading (ui w)) |}.

Definition read_clock (w : World) : World :=
  {| ui := ui w; ticks := S (ticks w); console := console w;
     requests := requests w |}.

Definition log_error (label : jsstring) (error : Thrown) (w : World) : World :=
  {| ui := ui w; ticks := ticks w; console := console w ++ [(label, error)];
     requests := requests w |}.

Definition log_request (url : jsstring) (init : RequestInit) (w : World) : World :=
  {| ui := ui w; ticks := ticks w; console := console w;
     requests := requests w ++ [(url, init)] |}.

(** The synchronous effects; an awaited effect has no answer yet. *)
Definition react (clock : nat -> N) (X : Type) (e : ClientE X) (w : World)
    : option (X * World) :=
  match e in ClientE X return option (X * World) with
  | DateNow => Some (clock (ticks w), read_clock w)
  | NewDate => Some (clock (ticks w), read_clock w)
  | SetMessages a => Some (tt, set_messages a w)
  | SetInputMessage a => Some (tt, set_inputMessage a w)
  | SetIsLoading a => Some (tt, set_isLoading a w)
  | Fetch _ _ => None
  | ResponseJson _ => None
  | ConsoleError label error => Some (tt, log_error label error w)
  end.

(** One turn of the event loop: the program runs until it finishes or
    awaits. *)
Definition turn {R : Type} (clock : nat -> N) (p : Prog ClientE R) (w : World)
    : Prog ClientE R * World :=
  advance (react clock) p w.

(** The request a suspended program is waiting on, if it waits on [fetch]. *)
Definition awaited_request {R : Type} (p : Prog ClientE R)
    : option (jsstring * RequestInit) :=
  match p with
  | Vis e _ =>
      match e with
      | Fetch url init => Some (url, init)
      | _ => None
      end
  | Ret _ => None
  end.

(** The promise of [fetch] settles with [o]: the suspended program goes on. *)
Definition settle_fetch {R : Type} (o : Outcome Response) (p : Prog ClientE R)
    : Prog ClientE R :=
  match p with
  | Vis e k =>
      match e in ClientE X return (X -> Prog ClientE R) -> Prog ClientE R with
      | Fetch _ _ => fun k' => k' o
      | e' => fun k' => Vis e' k'
      end k
  | Ret r => Ret r
  end.

(** The promise of [response.json()] settles with the parsed body. *)
Definition settle_json {R : Type} (p : Prog ClientE R) : Prog ClientE R :=
  match p with
  | Vis e k =>
      match e in ClientE X return (X -> Prog ClientE R) -> Prog ClientE R with
      | ResponseJson response => fun k' => k' (parsed response)
      | e' => fun k' => Vis e' k'
      end k
  | Ret r => Ret r
  end.

(** The whole exchange with nothing else happening in between: [net] is what
    the network answers to a request. *)
Definition react_all (clock : nat -> N)
    (net : jsstring -> RequestInit -> Outcome Response)
    (X : Type) (e : ClientE X) (w : World) : X * World :=
  match e in ClientE X return X * World with
  | DateNow => (clock (ticks w), read_clock w)
  | NewDate => (clock (ticks w), read_clock w)
  | SetMessages a => (tt, set_messages a w)
  | SetInputMessage a => (tt, set_inputMessage a w)
  | SetIsLoading a => (tt, set_isLoading a w)
  | Fetch url init => (net url init, log_request url init w)
  | ResponseJson response => (parsed response, w)
  | ConsoleError label error => (tt, log_error label error w)
  end.

Definition perform {R : Type} (clock : nat -> N)
    (net : jsstring -> RequestInit -> Outcome Response)
    (p : Prog ClientE R) (w : World) : R * World :=
  interp (react_all clock net) p w.

(** The world of a freshly mounted component. *)
Definition mounted (clock : nat -> N) : World :=
  {| ui := initialState (clock O); ticks := 1%nat; console := [];
     requests := [] |}.

End Chat.

(* ===================================================================== *)
(** ** The component talking to the route *)
(* ===================================================================== *)

Module EndToEnd.

(** The network as this repository provides it: the request body reaches
    [handler] as the component built it, and the response comes back with the
    handler's status and JSON body.  The component only ever fetches the one
    route. *)
Definition route (env : Relay.ProcessEnv) (w : Relay.Remote)
    (url : jsstring) (init : Chat.RequestInit) : Outcome Chat.Response :=
  let res := fst (Relay.run w (Relay.handler env
                   {| Relay.method := Chat.method init;
                      Relay.body := Chat.body init |})) in
  Normal {| Chat.status := Relay.status res;
            Chat.parsed := Normal (Relay.json res) |}.

End EndToEnd.

(* ===================================================================== *)
(** ** The page: the other handlers of the component, its view, its events *)
(* ===================================================================== *)

Module Page.

Import Chat.

(** The fields [handleKeyPress] reads of a keyboard event. *)
Record KeyboardEvent : Type := { key : jsstring; shiftKey : bool }.

(** [handleKeyPress]: whether it called [e.preventDefault()], and the
    program it started; the promise of [sendMessage()] is not awaited. *)
Definition handleKeyPress (c : State) (e : KeyboardEvent)
    : bool * Prog ClientE (Outcome unit) :=
  if str_eqb (key e) (js "Enter") && negb (shiftKey e)
  then (true, sendMessage c None)
  else (false, Ret (Normal tt)).

(** [onChange={(e) => setInputMessage(e.target.value)}]. *)
Definition onChange (value : jsstring) : Prog ClientE unit :=
  trigger (SetInputMessage (Value value)).

(** [onQuickAction={(message) => sendMessage(message)}]. *)
Definition onQuickAction (c : State) (message : jsstring)
    : Prog ClientE (Outcome unit) :=
  sendMessage c (Some message).

(** What reaches [sendMessage] as [messageText] at run time: nothing, a
    string, or the click event that [onClick={sendMessage}] passes. *)
Inductive Argument : Type :=
| Absent
| Text (s : jsstring)
| ClickEvent.

(** The truthiness of an argument: [undefined] and the empty string are
    falsy, an object is truthy. *)
Definition argument_truthy (a : Argument) : bool :=
  match a with
  | Absent => false
  | Text s => truthy s
  | ClickEvent => true
  end.

(** [messageText || inputMessage]. *)
Definition textToSend (a : Argument) (inputMessage : jsstring) : Argument :=
  if argument_truthy a then a else Text inputMessage.

(** [textToSend.trim()]: a string is trimmed; an event object has no [trim],
    and calling it throws a [TypeError] (the messages are the ones of V8). *)
Definition call_trim (v : Argument) : Outcome jsstring :=
  match v with
  | Text s => Normal (trim s)
  | ClickEvent =>
      Throw (ErrorObj (js "textToSend.trim is not a function"))
  | Absent =>
      Throw (ErrorObj (js "Cannot read properties of undefined (reading 'trim')"))
  end.

(** [sendMessage] on any of them: lines 55 and 56 are evaluated on the
    argument as it is; a throw at [trim] ends the call before [isLoading] is
    read or any state is set, and where [trim] returns the call is
    [sendMessage] on the string or on no argument. *)
Definition call_sendMessage (c : State) (a : Argument)
    : Prog ClientE (Outcome unit) :=
  match call_trim (textToSend a (inputMessage c)) with
  | Throw e => Ret (Throw e)
  | Normal _ =>
      sendMessage c (match a with
                     | Text s => Some s
                     | Absent | ClickEvent => None
                     end)
  end.

(** What the component renders, as far as it depends on the state: the
    bubbles (a user turn is right-aligned), the quick actions when they are
    shown with their [disabled] prop, the "AI is thinking..." row, the
    textarea and the send button. *)
Record View : Type := {
  bubbles : list (bool * jsstring);
  thinking : bool;
  quickActions : option bool;
  textareaValue : jsstring;
  textareaDisabled : bool;
  sendDisabled : bool
}.

Definition is_user (m : Message) : bool :=
  match role m with user => true | assistant => false end.

(** The component's return value: the sign-in notice ([None]) without a
    session, the chat otherwise. *)
Definition render (session : option Relay.Session) (c : State) : option View :=
  match session with
  | None => None
  | Some _ =>
      Some {| bubbles := map (fun message => (is_user message, content message))
                             (messages c);
              thinking := isLoading c;
              quickActions :=
                if (length (messages c) <=? 1)%nat then Some (isLoading c)
                else None;
              textareaValue := inputMessage c;
              textareaDisabled := isLoading c;
              sendDisabled := negb (truthy (trim (inputMessage c)))
                              || isLoading c |}
  end.

(** *** The page over time

    The page is the world of the component and the programs that are
    suspended on an [await].  A handler runs, as one turn of the event loop,
    in the state of the latest render; if it suspends on [fetch], the request
    has been sent. *)
Record UI : Type := {
  world : World;
  inflight : list (Prog ClientE (Outcome unit))
}.

Inductive Event : Type :=
| KeyPress (e : KeyboardEvent)
| Change (value : jsstring)
| QuickAction (message : jsstring)
| ClickSend
| ClickClear
| FetchSettled (i : nat) (o : Outcome Response)
| BodyRead (i : nat).

Definition finished {R : Type} (p : Prog ClientE R) : bool :=
  match p with Ret _ => true | Vis _ _ => false end.

Definition sent (p : Prog ClientE (Outcome unit)) (w : World) : World :=
  match awaited_request p with
  | Some (url, init) => log_request url init w
  | None => w
  end.

(** A handler is called. *)
Definition start (clock : nat -> N) (p : Prog ClientE (Outcome unit)) (u : UI)
    : UI :=
  let (p', w') := turn clock p (world u) in
  {| world := sent p' w';
     inflight := if finished p' then inflight u else inflight u ++ [p'] |}.

Definition replace_nth {A : Type} (i : nat) (l : list A) (x : option A)
    : list A :=
  firstn i l ++ match x with Some a => [a] | None => [] end ++ skipn (S i) l.

(** The promise the [i]-th suspended program waits on settles: [step] gives
    the program its answer, and it runs to its next [await] or to its end. *)
Definition resume (clock : nat -> N) (i : nat)
    (step : Prog ClientE (Outcome unit) -> Prog ClientE (Outcome unit))
    (u : UI) : UI :=
  match nth_error (inflight u) i with
  | None => u
  | Some p =>
      let (p', w') := turn clock (step p) (world u) in
      {| world := w';
         inflight := replace_nth i (inflight u)
                       (if finished p' then None else Some p') |}
  end.

Definition as_task (p : Prog ClientE unit) : Prog ClientE (Outcome unit) :=
  x <- p ;; Ret (Normal x).

Definition dispatch (clock : nat -> N) (u : UI) (ev : Event) : UI :=
  match ev with
  | KeyPress e => start clock (snd (handleKeyPress (ui (world u)) e)) u
  | Change value => start clock (as_task (onChange value)) u
  | QuickAction message => start clock (onQuickAction (ui (world u)) message) u
  | ClickSend => start clock (call_sendMessage (ui (world u)) ClickEvent) u
  | ClickClear => start clock (as_task clearChat) u
  | FetchSettled i o => resume clock i (settle_fetch o) u
  | BodyRead i => resume clock i settle_json u
  end.

Definition run_events (clock : nat -> N) (events : list Event) (u : UI) : UI :=
  fold_left (dispatch clock) events u.

(** The page after mounting. *)
Definition opened (clock : nat -> N) : UI :=
  {| world := mounted clock; inflight := [] |}.

End Page.

(* ===================================================================== *)
(** ** The route on any body *)
(* ===================================================================== *)

Module Untyped.

(** [req.body] is whatever JSON the client sent.  [Relay.handler] reads it
    at the shape the component sends.  The handler on the other shapes that
    change its course is given here: a body that is [null]; a
    [conversationHistory] that is [null], or not an array, or an array with
    a [null] entry.  (A body that is a string, a number or a boolean has no
    properties and is the body without fields; the entries that are not
    [null] are read at their [role] and [content].)  The messages of the
    [TypeError]s are the ones of V8. *)
Inductive HistoryValue : Type :=
| Undefined
| Null
| NotArray
| Array (entries : list (option Relay.ChatMessage)).

Inductive BodyValue : Type :=
| NullBody
| Body (message : option jsstring) (conversationHistory : HistoryValue).

(** The entries of an array as [map] visits them: reading [msg.role] of a
    [null] entry throws. *)
Fixpoint visit (entries : list (option Relay.ChatMessage))
    : Outcome (list Relay.ChatMessage) :=
  match entries with
  | [] => Normal []
  | None :: _ =>
      Throw (ErrorObj (js "Cannot read properties of null (reading 'role')"))
  | Some msg :: rest =>
      match visit rest with
      | Normal l => Normal (msg :: l)
      | Throw e => Throw e
      end
  end.

(** [conversationHistory.map(...)], up to the copying of the fields, which
    [Relay.prompt] does. *)
Definition mapped (conversationHistory : HistoryValue)
    : Outcome (list Relay.ChatMessage) :=
  match conversationHistory with
  | Undefined =>
      Throw (ErrorObj (js "Cannot read properties of undefined (reading 'map')"))
  | Null =>
      Throw (ErrorObj (js "Cannot read properties of null (reading 'map')"))
  | NotArray =>
      Throw (ErrorObj (js "conversationHistory.map is not a function"))
  | Array entries => visit entries
  end.

(** The [try] block: the prompt is built first, and building it may throw. *)
Definition handler_try (message : jsstring) (conversationHistory : HistoryValue)
    : Prog Relay.ServerE (Outcome Relay.ApiResponse) :=
  match mapped conversationHistory with
  | Throw e => Ret (Throw e)
  | Normal history => Relay.handler_try message history
  end.

(** The handler; it ends by throwing when the body cannot be destructured,
    and then sends no response. *)
Definition handler (env : Relay.ProcessEnv) (method : jsstring)
    (body : BodyValue) : Prog Relay.ServerE (Outcome Relay.ApiResponse) :=
  if negb (str_eqb method (js "POST"))
  then Ret (Normal (Relay.send 405 "Method not allowed"))
  else
    session <- trigger Relay.GetServerSession ;;
    match session with
    | None => Ret (Normal (Relay.send 401 "Unauthorized"))
    | Some _ =>
        match body with
        | NullBody =>
            Ret (Throw (ErrorObj (js "Cannot destructure property 'message' of 'req.body' as it is null.")))
        | Body message conversationHistory =>
            let conversationHistory :=
              match conversationHistory with
              | Undefined => Array []
              | given => given
              end in
            match message with
            | None => Ret (Normal (Relay.send 400 "Message is required"))
            | Some message =>
                if negb (truthy message)
                then Ret (Normal (Relay.send 400 "Message is required"))
                else if negb (truthy_opt (Relay.OPENAI_API_KEY env))
                then Ret (Normal (Relay.send 500 "OpenAI API key not configured"))
                else
                  res <- try_catch (handler_try message conversationHistory)
                                   Relay.handler_catch ;;
                  Ret (Normal res)
            end
        end
    end.

(** The body of a request of the shape the component sends. *)
Definition of_typed (body : Relay.RequestBody) : BodyValue :=
  Body (Relay.message body)
       (match Relay.conversationHistory body with
        | None => Undefined
        | Some history => Array (map Some history)
        end).

End Untyped.

(* ===================================================================== *)
(** ** Vocabulary of the properties *)
(* ===================================================================== *)

Import Chat.

(** A send is accepted when its text, [messageText || inputMessage], does not
    trim to the empty string and no request is pending. *)
Definition accepted (c : State) (messageText : option jsstring) : Prop :=
  truthy (trim (or_else messageText (inputMessage c))) = true
  /\ isLoading c = false.

(** Empty or made of white space only. *)
Definition blank (text : jsstring) : Prop :=
  forallb is_white_space text = true.

(** [after] is [before] with one turn of role [r] satisfying [P] at its end. *)
Definition appended (r : Role) (P : Message -> Prop)
    (before after : list Message) : Prop :=
  exists m, role m = r /\ P m /\ after = before ++ [m].

(** The remote call failed, as the component sees it: [fetch] rejected, the
    status is outside 200-299, or the body did not parse. *)
Definition failed (o : Outcome Response) : Prop :=
  match o with
  | Throw _ => True
  | Normal response =>
      ok response = false \/ exists e, parsed response = Throw e
  end.

(** The error of the route's empty-response case. *)
Definition EmptyResponse : Thrown := ErrorObj (js "No response from OpenAI").



(** The remote call succeeded without a text: there is no choice, or the
    first choice has no message, or its content is null or the empty
    string. *)
Definition no_text (completion : Relay.ChatCompletion) : Prop :=
  Relay.choices completion = []
  \/ exists top rest,
       Relay.choices completion = top :: rest
       /\ (Relay.choice_message top = None
           \/ exists m,
                Relay.choice_message top = Some m
                /\ (Relay.choice_content m = None
                    \/ Relay.choice_content m = Some [])).


(** The request an accepted send makes. *)
Definition chat_request (c : State) (messageText : option jsstring)
    : RequestInit :=
  {| method := js "POST";
     headers := [ (js "Content-Type", js "application/json") ];
     body := {| Relay.message := Some (or_else messageText (inputMessage c));
                Relay.conversationHistory :=
                  Some (map project (slice (-10) (messages c))) |} |}.

(** The parameters of the one remote call the route makes. *)
Definition call_params (message : jsstring)
    (history : list Relay.ChatMessage) : Relay.CompletionParams :=
  {| Relay.model := js "gpt-4o";
     Relay.messages :=
       {| Relay.role := js "system";
          Relay.content := Relay.MEDICAL_SYSTEM_PROMPT |}
       :: history
       ++ [ {| Relay.role := js "user"; Relay.content := message |} ];
     Relay.max_tokens := 1000;
     Relay.temperature := 7 # 10;
     Relay.presence_penalty := 1 # 10;
     Relay.frequency_penalty := 1 # 10 |}.

(** The history the route works with: the one of the body, or the empty
    list when the body has none. *)
Definition history_of (req : Relay.ApiRequest) : list Relay.ChatMessage :=
  match Relay.conversationHistory (Relay.body req) with
  | Some history => history
  | None => []
  end.


(** The headache scenario, with the length of the context window left open:
    the component has just been mounted, so the conversation is the welcome
    turn; the user sends the text; the network answers 200 with the reply. *)
Definition headache : jsstring := js "I have a headache".

Definition try_resting (url : jsstring) (init : RequestInit)
    : Outcome Response :=
  Normal {| status := 200;
            parsed := Normal {| Relay.res_message := js "Try resting.";
                                Relay.res_usage := None |} |}.

Definition headache_scenario (n : nat) : Prop :=
  forall clock : nat -> N,
    let w := mounted clock in
    let done := perform clock try_resting (sendMessage (ui w) (Some headache)) w in
    exists init,
      requests (snd done) = [(js "/api/chat/medical", init)]
      /\ (exists window,
            Relay.conversationHistory (body init) = Some window
            /\ length window = n)
      /\ map (fun m => (role m, content m)) (messages (ui (snd done)))
         = [(assistant, WELCOME); (user, headache);
            (assistant, js "Try resting.")].

(** *** Sample inputs *)

Definition clock0 (n : nat) : N := 1730505600000 + N.of_nat n.

Definition turn_of (n : nat) : Message :=
  {| id := toString (N.of_nat n);
     role := if Nat.even n then assistant else user;
     content := js "turn " ++ toString (N.of_nat n);
     timestamp := clock0 n |}.

Definition world_with (turns : list Message) (input : jsstring)
    (loading : bool) : World :=
  {| ui := {| messages := turns; inputMessage := input;
              isLoading := loading |};
     ticks := 0%nat; console := []; requests := [] |}.

(** Fifteen turns, nothing typed, nothing pending. *)
Definition fifteen_turns : World :=
  world_with (map turn_of (seq 0 15)) [] false.

(** A request is pending. *)
Definition waiting : World := world_with (map turn_of (seq 0 2)) [] true.

Definition offline (url : jsstring) (init : RequestInit) : Outcome Response :=
  Throw (ErrorObj (js "Failed to fetch")).

Definition with_key : Relay.ProcessEnv :=
  {| Relay.OPENAI_API_KEY := Some (js "sk-test") |}.

Definition quota_error : Thrown :=
  ErrorObj (js "You exceeded your current quota, please check your plan and billing details.").

Definition signed_in_over_quota : Relay.Remote :=
  {| Relay.session_of := Some {| Relay.session_user := js "pat" |};
     Relay.create := fun _ => Throw quota_error |}.

(** A remote service that answers every call with two choices and a usage. *)
Definition two_choices : Relay.ChatCompletion :=
  {| Relay.choices :=
       [ {| Relay.choice_message :=
              Some {| Relay.choice_content := Some (js "Try resting.") |} |};
         {| Relay.choice_message :=
              Some {| Relay.choice_content := Some (js "See a doctor.") |} |} ];
     Relay.usage := Some {| Relay.prompt_tokens := 900;
                            Relay.completion_tokens := 3;
                            Relay.total_tokens := 903 |} |}.

Definition signed_in_answering : Relay.Remote :=
  {| Relay.session_of := Some {| Relay.session_user := js "pat" |};
     Relay.create := fun _ => Normal two_choices |}.

(** A remote service that answers without any choice. *)
Definition signed_in_silent : Relay.Remote :=
  {| Relay.session_of := Some {| Relay.session_user := js "pat" |};
     Relay.create := fun _ =>
       Normal {| Relay.choices := []; Relay.usage := None |} |}.

Definition post (text : option jsstring)
    (history : option (list Relay.ChatMessage)) : Relay.ApiRequest :=
  {| Relay.method := js "POST";
     Relay.body := {| Relay.message := text;
                      Relay.conversationHistory := history |} |}.

Definition get : Relay.ApiRequest :=
  {| Relay.method := js "GET";
     Relay.body := {| Relay.message := None;
                      Relay.conversationHistory := None |} |}.

(** *** Vocabulary of the page *)

Import Page.

(** [w'] is [w] after the reply to a send has been committed: one assistant
    turn more, the pending flag cleared, the input box and the requests as
    they were. *)
Definition replied (w w' : World) : Prop :=
  exists a, role a = assistant
    /\ ui w' = {| messages := messages (ui w) ++ [a];
                  inputMessage := inputMessage (ui w);
                  isLoading := false |}
    /\ requests w' = requests w.

(** A send suspended on [response.json()]: once the body is read it commits
    its reply and ends, in whatever world that happens. *)
Definition awaiting_body (clock : nat -> N)
    (p : Prog ClientE (Outcome unit)) : Prop :=
  exists response k,
    p = Vis (ResponseJson response) k
    /\ forall w, exists w',
         turn clock (k (parsed response)) w = (Ret (Normal tt), w')
         /\ replied w w'.

(** A send suspended on [fetch]: when it settles the send either commits its
    reply and ends, or goes on to read the body without touching the world. *)
Definition awaiting_fetch (clock : nat -> N)
    (p : Prog ClientE (Outcome unit)) : Prop :=
  exists url init k,
    p = Vis (Fetch url init) k
    /\ forall o w,
         (exists w', turn clock (k o) w = (Ret (Normal tt), w') /\ replied w w')
         \/ (exists p', turn clock (k o) w = (p', w) /\ awaiting_body clock p').

Fixpoint no_two_users (l : list Message) : bool :=
  match l with
  | a :: rest =>
      match rest with
      | b :: _ => negb (is_user a && is_user b) && no_two_users rest
      | [] => true
      end
  | [] => true
  end.

Fixpoint last_turn (l : list Message) : option Message :=
  match l with
  | [] => None
  | m :: rest =>
      match rest with
      | [] => Some m
      | _ :: _ => last_turn rest
      end
  end.

Definition ends_with_assistant (l : list Message) : bool :=
  match last_turn l with
  | Some m => negb (is_user m)
  | None => false
  end.

(** A conversation opens with an assistant turn of id "1" and never has two
    user turns in a row. *)
Definition well_formed (l : list Message) : Prop :=
  (exists first rest,
      l = first :: rest /\ role first = assistant /\ id first = js "1")
  /\ no_two_users l = true.

(** A request to the chat route: POST, a text that is not blank, at most ten
    turns of history. *)
Definition well_formed_request (r : jsstring * RequestInit) : Prop :=
  fst r = js "/api/chat/medical"
  /\ method (snd r) = js "POST"
  /\ (exists text, Relay.message (body (snd r)) = Some text /\ ~ blank text)
  /\ (exists history,
        Relay.conversationHistory (body (snd r)) = Some history
        /\ (length history <= 10)%nat).

(** The page is idle, or exactly one send is in flight. *)
Definition consistent (clock : nat -> N) (u : UI) : Prop :=
  well_formed (messages (ui (world u)))
  /\ Forall well_formed_request (requests (world u))
  /\ ((inflight u = []
       /\ isLoading (ui (world u)) = false
       /\ ends_with_assistant (messages (ui (world u))) = true)
      \/ (exists p,
            inflight u = [p]
            /\ isLoading (ui (world u)) = true
            /\ (awaiting_fetch clock p \/ awaiting_body clock p))).

(** The answer of the route, as a pure function of its surroundings once the
    remote call is made. *)
Definition relayed (w : Relay.Remote) (msg : jsstring)
    (history : list Relay.ChatMessage) : Relay.ApiResponse * list Relay.Observed :=
  match Relay.create w (call_params msg history) with
  | Normal completion =>
      match Relay.first_content completion with
      | Some (c :: text) =>
          ({| Relay.status := 200;
              Relay.json := {| Relay.res_message := c :: text;
                               Relay.res_usage := Relay.usage completion |} |},
           [Relay.SessionLookup; Relay.RemoteCall (call_params msg history)])
      | _ =>
          (Relay.send 500 "Failed to get AI response. Please try again later.",
           [Relay.SessionLookup; Relay.RemoteCall (call_params msg history);
            Relay.Logged (js "OpenAI API error:") EmptyResponse])
      end
  | Throw e =>
      (match e with
       | ErrorObj m =>
           if includes m (js "API key")
           then Relay.send 401 "Invalid OpenAI API key"
           else if includes m (js "quota")
           then Relay.send 429 "API quota exceeded"
           else Relay.send 500 "Failed to get AI response. Please try again later."
       | NonError =>
           Relay.send 500 "Failed to get AI response. Please try again later."
       end,
       [Relay.SessionLookup; Relay.RemoteCall (call_params msg history);
        Relay.Logged (js "OpenAI API error:") e])
  end.

(** The responses of the route that do not come from the remote service. *)
Definition fixed_responses : list Relay.ApiResponse :=
  [ Relay.send 405 "Method not allowed";
    Relay.send 401 "Unauthorized";
    Relay.send 400 "Message is required";
    Relay.send 500 "OpenAI API key not configured";
    Relay.send 401 "Invalid OpenAI API key";
    Relay.send 429 "API quota exceeded";
    Relay.send 500 "Failed to get AI response. Please try again later." ].

(** The text the assistant turn shows after a send through the route: the
    first choice of the remote service when the user is signed in, the key
    is configured and the call gives a non-empty text; the apology
    otherwise. *)
Definition reply_text (env : Relay.ProcessEnv) (srv : Relay.Remote)
    (c : State) (messageText : option jsstring) : jsstring :=
  match Relay.session_of srv with
  | None => APOLOGY
  | Some _ =>
      if truthy_opt (Relay.OPENAI_API_KEY env)
      then
        match Relay.create srv
                (call_params (or_else messageText (inputMessage c))
                             (map project (slice (-10) (messages c)))) with
        | Normal completion =>
            match Relay.first_content completion with
            | Some (x :: text) => x :: text
            | _ => APOLOGY
            end
        | Throw _ => APOLOGY
        end
      else APOLOGY
  end.

(** A remote service that answers every call with one choice. *)
Definition answering (text : jsstring) : Relay.Remote :=
  {| Relay.session_of := Some {| Relay.session_user := js "pat" |};
     Relay.create := fun _ =>
       Normal {| Relay.choices :=
                   [ {| Relay.choice_message :=
                          Some {| Relay.choice_content := Some text |} |} ];
                 Relay.usage := None |} |}.

(** *** Vocabulary of the route on any body *)

(** The request passes the four checks that precede the [try] block, with
    message [msg] and history [h]. *)
Definition passes_checks (env : Relay.ProcessEnv) (w : Relay.Remote)
    (method : jsstring) (body : Untyped.BodyValue)
    (msg : jsstring) (h : Untyped.HistoryValue) : Prop :=
  method = js "POST"
  /\ Relay.session_of w <> None
  /\ body = Untyped.Body (Some msg) h
  /\ msg <> []
  /\ truthy_opt (Relay.OPENAI_API_KEY env) = true.

(** The history after the default of the destructuring. *)
Definition defaulted (h : Untyped.HistoryValue) : Untyped.HistoryValue :=
  match h with
  | Untyped.Undefined => Untyped.Array []
  | given => given
  end.

(** The history is absent, or an array without a [null] entry; [l] is what
    the prompt is built from. *)
Definition history_is (h : Untyped.HistoryValue)
    (l : list Relay.ChatMessage) : Prop :=
  (h = Untyped.Undefined /\ l = []) \/ h = Untyped.Array (map Some l).

(** The history cannot be mapped: it is [null], or not an array, or an array
    with a [null] entry. *)
Definition history_broken (h : Untyped.HistoryValue) : Prop :=
  h = Untyped.Null \/ h = Untyped.NotArray
  \/ exists entries, h = Untyped.Array entries /\ In None entries.

(** The handler sent [res]. *)
Definition answered_200 (result : Outcome Relay.ApiResponse) : Prop :=
  exists res, result = Normal res /\ Relay.status res = 200%Z.

(** Bodies that reach the [try] block with a history that cannot be
    mapped. *)
Definition null_history : Untyped.BodyValue :=
  Untyped.Body (Some headache) Untyped.Null.

Definition null_entry : Untyped.BodyValue :=
  Untyped.Body (Some headache)
    (Untyped.Array [ Some {| Relay.role := js "user";
                             Relay.content := js "hello" |};
                     None ]).

(* ===================================================================== *)
(** ** Properties *)
(* ===================================================================== *)

(** *** Strings and slices *)

Example js_ascii : js "POST" = [80; 79; 83; 84].
Proof. reflexivity. Qed.
Example js_emoji : js "🤗•" = [55358; 56599; 8226].
Proof. reflexivity. Qed.
Example trim_blank : trim (js "   ") = [].
Proof. reflexivity. Qed.
Example trim_text : trim (js "  a b ") = js "a b".
Proof. reflexivity. Qed.
Example slice_short : slice (-10) [1; 2; 3] = [1; 2; 3].
Proof. reflexivity. Qed.
Example toString_ex : toString 1730505600000 = js "1730505600000".
Proof. reflexivity. Qed.
Example includes_ex : includes (js "Incorrect API key provided") (js "API key") = true.
Proof. reflexivity. Qed.


Lemma trimStart_nil (s : jsstring) :
  trimStart s = [] <-> forallb is_white_space s = true.
Proof.
  induction s as [|c s IH]; cbn [trimStart forallb].
  - tauto.
  - destruct (is_white_space c); cbn [andb].
    + exact IH.
    + split; discriminate.
Qed.

Lemma trimStart_head (s t : jsstring) (c : N) :
  trimStart s = c :: t -> is_white_space c = false.
Proof.
  induction s as [|d s IH]; cbn [trimStart]; [discriminate|].
  destruct (is_white_space d) eqn:Hd; [exact IH|].
  intros H. injection H as -> _. exact Hd.
Qed.

Lemma forallb_rev {A : Type} (f : A -> bool) (l : list A) :
  forallb f (rev l) = forallb f l.
Proof.
  induction l as [|a l IH]; [reflexivity|].
  cbn [rev forallb]. rewrite forallb_app, IH. cbn [forallb].
  rewrite andb_true_r. apply andb_comm.
Qed.

Lemma rev_nil_inv {A : Type} (l : list A) : rev l = [] -> l = [].
Proof.
  intros H. rewrite <- (rev_involutive l), H. reflexivity.
Qed.

(** The guard of [sendMessage] reads [!textToSend.trim()]: the trimmed text is
    the empty string exactly when every code unit of the text is white
    space. *)
Lemma trim_falsy_iff_blank (s : jsstring) :
  truthy (trim s) = false <-> blank s.
Proof.
  unfold blank, trim, trimEnd. split.
  - intros H.
    destruct (rev (trimStart (rev (trimStart s)))) as [|c t] eqn:E;
      [|discriminate].
    apply rev_nil_inv, trimStart_nil in E. rewrite forallb_rev in E.
    destruct (trimStart s) as [|d u] eqn:Es.
    + now apply trimStart_nil.
    + apply trimStart_head in Es. cbn [forallb] in E. rewrite Es in E.
      discriminate.
  - intros H. apply trimStart_nil in H. rewrite H. reflexivity.
Qed.

Lemma slice_last_ten {A : Type} (l : list A) :
  slice (-10) l = skipn (length l - 10) l.
Proof.
  unfold slice. cbn [Z.ltb Z.compare]. f_equal. lia.
Qed.

Lemma slice_last_ten_length {A : Type} (l : list A) :
  length (slice (-10) l) = Nat.min 10 (length l).
Proof.
  rewrite slice_last_ten, length_skipn. lia.
Qed.

Lemma slice_last_ten_suffix {A : Type} (l : list A) :
  l = firstn (length l - 10) l ++ slice (-10) l.
Proof.
  rewrite slice_last_ten. symmetry. apply firstn_skipn.
Qed.

Lemma accepted_guard (c : State) (messageText : option jsstring) :
  accepted c messageText ->
  negb (truthy (trim (or_else messageText (inputMessage c)))) || isLoading c
  = false.
Proof.
  intros [Ht Hl]. rewrite Ht, Hl. reflexivity.
Qed.

Ltac run_prog :=
  cbn -[js toString slice trim or_else APOLOGY WELCOME WELCOME_BACK
        Relay.MEDICAL_SYSTEM_PROMPT Relay.prompt includes str_eqb].

Ltac start_send H :=
  unfold turn, perform, sendMessage; rewrite (accepted_guard _ _ H); run_prog.

(** *** The conversation state manager *)

(** C1. An accepted send suspends on one [fetch] of the chat route whose
    [conversationHistory] is the projection to [{ role, content }] of the last
    [min 10 (length messages)] turns the conversation held before the new
    user turn was appended, in their order; it never has more than 10
    entries. *)
Theorem sendMessage_context_window (clock : nat -> N) (w : World)
    (messageText : option jsstring) :
  accepted (ui w) messageText ->
  exists init older window,
    awaited_request (fst (turn clock (sendMessage (ui w) messageText) w))
      = Some (js "/api/chat/medical", init)
    /\ appended user (fun m => content m = or_else messageText (inputMessage (ui w)))
         (messages (ui w))
         (messages (ui (snd (turn clock (sendMessage (ui w) messageText) w))))
    /\ messages (ui w) = older ++ window
    /\ length window = Nat.min 10 (length (messages (ui w)))
    /\ Relay.conversationHistory (body init)
       = Some (map (fun m => {| Relay.role := role_name (role m);
                                Relay.content := content m |}) window)
    /\ (length window <= 10)%nat.
Proof.
  intros H. start_send H.
  eexists _, (firstn (length (messages (ui w)) - 10) (messages (ui w))),
    (slice (-10) (messages (ui w))).
  split; [reflexivity|]. split.
  { eexists. split; [|split; [|reflexivity]]; reflexivity. }
  split; [apply slice_last_ten_suffix|].
  split; [apply slice_last_ten_length|].
  split; [reflexivity|].
  rewrite slice_last_ten_length. lia.
Qed.

(** C2. A send whose text ([messageText || inputMessage]) is empty or white
    space only, and any send made while a request is pending, returns at the
    guard: the program performs no effect at all, so the conversation, the
    pending flag and the rest of the world are unchanged and no request is
    sent. *)
Theorem sendMessage_noop (clock : nat -> N)
    (net : jsstring -> RequestInit -> Outcome Response) (w : World)
    (messageText : option jsstring) :
  blank (or_else messageText (inputMessage (ui w))) \/ isLoading (ui w) = true ->
  sendMessage (ui w) messageText = Ret (Normal tt)
  /\ turn clock (sendMessage (ui w) messageText) w = (Ret (Normal tt), w)
  /\ perform clock net (sendMessage (ui w) messageText) w = (Normal tt, w).
Proof.
  intros H.
  assert (G : sendMessage (ui w) messageText = Ret (Normal tt)).
  { unfold sendMessage. destruct H as [H|H].
    - apply trim_falsy_iff_blank in H. rewrite H. reflexivity.
    - rewrite H, orb_true_r. reflexivity. }
  rewrite G. repeat split.
Qed.

Ltac show_appended :=
  eexists; split; [|split; [|reflexivity]];
    [reflexivity|try exact I; try reflexivity].

Ltac reply_cases :=
  split;
    [ intros F; try reflexivity; cbn in F; destruct F as [F|[? F]]; congruence
    | intros ? ? Hn Ho Hp; cbn; congruence ].

(** Whatever the network answers, the uninterrupted exchange of an accepted
    send ends with the user turn and one assistant turn appended, the pending
    flag cleared and one request sent. *)
Lemma perform_accepted (clock : nat -> N)
    (net : jsstring -> RequestInit -> Outcome Response) (w : World)
    (messageText : option jsstring) :
  accepted (ui w) messageText ->
  let init := chat_request (ui w) messageText in
  let done := perform clock net (sendMessage (ui w) messageText) w in
  exists u a,
    fst done = Normal tt
    /\ messages (ui (snd done)) = messages (ui w) ++ [u; a]
    /\ requests (snd done) = requests w ++ [(js "/api/chat/medical", init)]
    /\ isLoading (ui (snd done)) = false
    /\ role u = user /\ content u = or_else messageText (inputMessage (ui w))
    /\ role a = assistant
    /\ (failed (net (js "/api/chat/medical") init) -> content a = APOLOGY)
    /\ (forall response data,
          net (js "/api/chat/medical") init = Normal response ->
          ok response = true -> parsed response = Normal data ->
          content a = Relay.res_message data).
Proof.
  intros H init done. subst init done. unfold chat_request. start_send H.
  match goal with
  | |- context [net ?u ?i] => destruct (net u i) as [response|e] eqn:En
  end; run_prog;
    [destruct (parsed response) as [data|e] eqn:Ep; run_prog;
     [destruct (ok response) eqn:Eo; run_prog|]|];
    do 2 eexists; rewrite <- !app_assoc; cbn [app];
    do 7 (split; [reflexivity|]); reply_cases.
Qed.

(** The same exchange step by step: after the send has suspended on [fetch],
    its settling with [o] in any world [w2] and the reading of the body in any
    world [w3] append one assistant turn between them and clear the pending
    flag; the turn is the apology when the call failed and the response's
    message otherwise. *)
Lemma resolve_accepted (clock : nat -> N) (w : World)
    (messageText : option jsstring) (o : Outcome Response) (w2 w3 : World) :
  accepted (ui w) messageText ->
  let sent := turn clock (sendMessage (ui w) messageText) w in
  let fetched := turn clock (settle_fetch o (fst sent)) w2 in
  let read := turn clock (settle_json (fst fetched)) w3 in
  let reply (m : Message) :=
    (failed o -> content m = APOLOGY)
    /\ (forall response data,
          o = Normal response -> ok response = true ->
          parsed response = Normal data ->
          content m = Relay.res_message data) in
  fst read = Ret (Normal tt)
  /\ ((fst fetched = Ret (Normal tt)
       /\ appended assistant reply
            (messages (ui w2)) (messages (ui (snd fetched)))
       /\ isLoading (ui (snd fetched)) = false
       /\ snd read = w3)
      \/ (snd fetched = w2
          /\ appended assistant reply
               (messages (ui w3)) (messages (ui (snd read)))
          /\ isLoading (ui (snd read)) = false)).
Proof.
  intros H. start_send H.
  destruct o as [response|e]; run_prog;
    [destruct (parsed response) as [data|e] eqn:Ep; run_prog;
     [destruct (ok response) eqn:Eo; run_prog|]|];
    (split; [reflexivity|]).
  1-3: right; split; [reflexivity|]; split; [|reflexivity].
  4: left; split; [reflexivity|]; split; [|split; reflexivity].
  all: show_appended; reply_cases.
Qed.

(** C3. An accepted send appends the user turn at once.  When [fetch]
    settles with any outcome [o], in whatever world [w2] the component is
    then, and when the body is read, in whatever world [w3], the program
    appends exactly one assistant turn in all: either [fetch] or the status
    failed it and the turn is appended in that step, the program finishing
    there, or the first step changes nothing and the turn is appended once
    the body is read.  Run without anything in between, the conversation
    ends two turns longer: the user turn and one assistant turn. *)
Theorem sendMessage_one_reply (clock : nat -> N) (w : World)
    (messageText : option jsstring) (o : Outcome Response) (w2 w3 : World) :
  accepted (ui w) messageText ->
  let sent := turn clock (sendMessage (ui w) messageText) w in
  let fetched := turn clock (settle_fetch o (fst sent)) w2 in
  let read := turn clock (settle_json (fst fetched)) w3 in
  appended user (fun _ => True) (messages (ui w)) (messages (ui (snd sent)))
  /\ fst read = Ret (Normal tt)
  /\ ((fst fetched = Ret (Normal tt)
       /\ appended assistant (fun _ => True)
            (messages (ui w2)) (messages (ui (snd fetched)))
       /\ snd read = w3)
      \/ (snd fetched = w2
          /\ appended assistant (fun _ => True)
               (messages (ui w3)) (messages (ui (snd read)))))
  /\ forall net, exists u a,
       role u = user /\ role a = assistant
       /\ fst (perform clock net (sendMessage (ui w) messageText) w) = Normal tt
       /\ messages (ui (snd (perform clock net (sendMessage (ui w) messageText) w)))
          = messages (ui w) ++ [u; a]
       /\ length (messages (ui (snd (perform clock net
                                      (sendMessage (ui w) messageText) w))))
          = (length (messages (ui w)) + 2)%nat.
Proof.
  intros H sent fetched read.
  split.
  { subst sent. start_send H. show_appended. }
  destruct (resolve_accepted clock w messageText o w2 w3 H)
    as [Hend Hcases].
  split; [exact Hend|]. split.
  - destruct Hcases as [(Hf & (a & Ha & _ & Happ) & _ & Hr)
                       |(Hf & (a & Ha & _ & Happ) & _)].
    + left. split; [exact Hf|]. split; [|exact Hr].
      exists a. repeat split; assumption.
    + right. split; [exact Hf|]. exists a. repeat split; assumption.
  - intros net.
    destruct (perform_accepted clock net w messageText H)
      as (u & a & Hr & Hm & _ & _ & Hu & _ & Ha & _).
    exists u, a. repeat split; try assumption.
    rewrite Hm, length_app. cbn. lia.
Qed.

(** C4. When the remote call of an accepted send fails, the conversation
    gains, after the user turn, exactly one assistant turn whose content is
    the fixed apology, and the pending flag is false again.  This holds for
    the uninterrupted exchange, and step by step for every failed outcome [o]
    in whatever worlds [w2] and [w3] the two steps find. *)
Theorem sendMessage_failure_apology (clock : nat -> N)
    (net : jsstring -> RequestInit -> Outcome Response) (w : World)
    (messageText : option jsstring) :
  accepted (ui w) messageText ->
  (forall url init, failed (net url init)) ->
  let done := perform clock net (sendMessage (ui w) messageText) w in
  let sent := turn clock (sendMessage (ui w) messageText) w in
  fst done = Normal tt
  /\ (exists u, role u = user
        /\ appended assistant (fun m => content m = APOLOGY)
             (messages (ui w) ++ [u]) (messages (ui (snd done))))
  /\ length (messages (ui (snd done))) = (length (messages (ui w)) + 2)%nat
  /\ isLoading (ui (snd done)) = false
  /\ forall o w2 w3, failed o ->
       let fetched := turn clock (settle_fetch o (fst sent)) w2 in
       let read := turn clock (settle_json (fst fetched)) w3 in
       fst read = Ret (Normal tt)
       /\ ((fst fetched = Ret (Normal tt)
            /\ appended assistant (fun m => content m = APOLOGY)
                 (messages (ui w2)) (messages (ui (snd fetched)))
            /\ isLoading (ui (snd fetched)) = false
            /\ snd read = w3)
           \/ (snd fetched = w2
               /\ appended assistant (fun m => content m = APOLOGY)
                    (messages (ui w3)) (messages (ui (snd read)))
               /\ isLoading (ui (snd read)) = false)).
Proof.
  intros H Hnet done sent.
  destruct (perform_accepted clock net w messageText H)
    as (u & a & Hr & Hm & _ & Hl & Hu & _ & Ha & Hf & _).
  fold done in Hr, Hm, Hl.
  split; [exact Hr|]. split.
  { exists u. split; [exact Hu|]. exists a.
    split; [exact Ha|]. split; [apply Hf, Hnet|].
    rewrite Hm, <- app_assoc. reflexivity. }
  split; [rewrite Hm, length_app; cbn; lia|].
  split; [exact Hl|].
  intros o w2 w3 Ho fetched read.
  destruct (resolve_accepted clock w messageText o w2 w3 H) as [Hend Hcases].
  split; [exact Hend|].
  destruct Hcases as [(Hp & (m & Hrole & [Hc _] & Happ) & Hload & Hw)
                     |(Hp & (m & Hrole & [Hc _] & Happ) & Hload)].
  - left. split; [exact Hp|]. split; [|split; assumption].
    exists m. repeat split; auto.
  - right. split; [exact Hp|]. split; [|assumption].
    exists m. repeat split; auto.
Qed.

(** C5, as stated: the context window of the scenario is not empty, it holds
    the welcome turn. *)
Lemma headache_window_not_empty : ~ headache_scenario 0.
Proof.
  intros Hc. destruct (Hc (fun _ => 0)) as (init & Hreq & (h & Hh & Hlen) & _).
  cbn in Hreq. injection Hreq as <-. cbn in Hh. injection Hh as <-.
  discriminate Hlen.
Qed.

(** C5, amended. From the freshly mounted component, sending
    "I have a headache" issues exactly one request, whose context window has
    length 1 (the welcome turn); on a 200 answer carrying "Try resting." the
    conversation is [welcome, user: "I have a headache",
    assistant: "Try resting."]. *)
Theorem headache_scenario_holds : headache_scenario 1.
Proof.
  intros clock w done. eexists. split; [reflexivity|].
  split; [eexists; split; reflexivity|]. reflexivity.
Qed.

(** C8. From any world, whatever the pending flag, [clearChat] finishes in
    one step and leaves a conversation of exactly one turn, of role
    assistant: the welcome-back turn.  The pending flag is not touched. *)
Theorem clearChat_resets (clock : nat -> N) (w : World) :
  fst (turn clock clearChat w) = Ret tt
  /\ length (messages (ui (snd (turn clock clearChat w)))) = 1%nat
  /\ (exists m, messages (ui (snd (turn clock clearChat w))) = [m]
                /\ role m = assistant /\ content m = WELCOME_BACK)
  /\ isLoading (ui (snd (turn clock clearChat w))) = isLoading (ui w).
Proof.
  unfold turn, clearChat. run_prog.
  split; [reflexivity|]. split; [reflexivity|].
  split; [|reflexivity]. eexists. repeat split.
Qed.

(** *** The completion relay *)

Lemma str_eqb_eq (a b : jsstring) : str_eqb a b = true <-> a = b.
Proof.
  revert b. induction a as [|x a IH]; intros [|y b]; cbn [str_eqb];
    try (split; [discriminate|intros [=]]); [tauto|].
  rewrite andb_true_iff, N.eqb_eq, IH. split.
  - intros [-> ->]. reflexivity.
  - intros [= -> ->]. split; reflexivity.
Qed.

Lemma str_eqb_neq (a b : jsstring) : str_eqb a b = false <-> a <> b.
Proof.
  rewrite <- str_eqb_eq. destruct (str_eqb a b); split; congruence.
Qed.

(** Copying [role] and [content] out of each entry of a history that holds
    nothing else gives the history back. *)
Lemma map_copy_fields (history : list Relay.ChatMessage) :
  map (fun msg => {| Relay.role := Relay.role msg;
                     Relay.content := Relay.content msg |}) history
  = history.
Proof.
  induction history as [|[r c] h IH]; cbn; [|rewrite IH]; reflexivity.
Qed.

Lemma prompt_shape (message : jsstring) (history : list Relay.ChatMessage) :
  Relay.prompt message history
  = {| Relay.role := js "system";
       Relay.content := Relay.MEDICAL_SYSTEM_PROMPT |}
    :: history
    ++ [ {| Relay.role := js "user"; Relay.content := message |} ].
Proof.
  unfold Relay.prompt. rewrite map_copy_fields. reflexivity.
Qed.

Lemma first_content_top (completion : Relay.ChatCompletion)
    (top : Relay.Choice) (rest : list Relay.Choice) (m : Relay.ChoiceMessage)
    (text : jsstring) :
  Relay.choices completion = top :: rest ->
  Relay.choice_message top = Some m ->
  Relay.choice_content m = Some text ->
  Relay.first_content completion = Some text.
Proof.
  intros Hc Hm Ht. unfold Relay.first_content. rewrite Hc, Hm. exact Ht.
Qed.

Lemma first_content_no_text (completion : Relay.ChatCompletion) :
  no_text completion <-> truthy_opt (Relay.first_content completion) = false.
Proof.
  unfold no_text, Relay.first_content.
  destruct (Relay.choices completion) as [|top rest].
  - split; [reflexivity|]. intros _. left. reflexivity.
  - destruct (Relay.choice_message top) as [m|] eqn:Em.
    + destruct (Relay.choice_content m) as [[|x text]|] eqn:Et; cbn.
      * split; [reflexivity|]. intros _. right. exists top, rest.
        split; [reflexivity|]. right. exists m. split; [exact Em|].
        right. exact Et.
      * split; [|discriminate].
        intros [H|(t & r & [= <- <-] & [H|(m' & H & [H'|H'])])];
          congruence.
      * split; [reflexivity|]. intros _. right. exists top, rest.
        split; [reflexivity|]. right. exists m. split; [exact Em|].
        left. exact Et.
    + split; [reflexivity|]. intros _. right. exists top, rest.
      split; [reflexivity|]. left. exact Em.
Qed.

(** C6. For every user message and context window, the relay makes one
    remote call, whose prompt is the system instruction, then the turns of
    the context window in their order, then the user turn with the message.
    When the call succeeds and the first of its choices carries a non-empty
    text, the relay returns that text (in a 200 response, with the usage),
    whatever the other choices are; when it succeeds without such a text (no
    choice, no message in the first choice, a null or empty content), the
    relay fails with the empty-response error; an error of the call itself
    is passed on. *)
Theorem handler_try_complete (w : Relay.Remote) (message : jsstring)
    (history : list Relay.ChatMessage) :
  let params := call_params message history in
  let result := Relay.run w (Relay.handler_try message history) in
  snd result = [Relay.RemoteCall params]
  /\ Relay.messages params
     = {| Relay.role := js "system";
          Relay.content := Relay.MEDICAL_SYSTEM_PROMPT |}
       :: history
       ++ [ {| Relay.role := js "user"; Relay.content := message |} ]
  /\ (forall completion top rest m text,
        Relay.create w params = Normal completion ->
        Relay.choices completion = top :: rest ->
        Relay.choice_message top = Some m ->
        Relay.choice_content m = Some text -> text <> [] ->
        fst result
        = Normal {| Relay.status := 200;
                    Relay.json := {| Relay.res_message := text;
                                     Relay.res_usage := Relay.usage completion |} |})
  /\ (forall completion,
        Relay.create w params = Normal completion ->
        no_text completion ->
        fst result = Throw EmptyResponse)
  /\ (forall e, Relay.create w params = Throw e -> fst result = Throw e).
Proof.
  intros params result. subst result.
  unfold Relay.run, Relay.handler_try.
  cbn [interp bind bind_try trigger Relay.answer app].
  rewrite prompt_shape. fold (call_params message history). fold params.
  destruct (Relay.create w params) as [completion|e] eqn:Ec.
  - cbn [interp bind].
    destruct (Relay.first_content completion) as [[|c text]|] eqn:Ef;
      cbn [truthy negb interp fst snd];
      (split; [reflexivity|]); (split; [reflexivity|]);
      (split;
       [ intros cpl top rest m txt [= <-] Hc Hm Ht Hne;
         rewrite (first_content_top _ _ _ _ _ Hc Hm Ht) in Ef; congruence
       | split;
         [ intros cpl [= <-] Hn; apply first_content_no_text in Hn;
           rewrite Ef in Hn; try discriminate Hn; reflexivity
         | intros ? [=] ] ]).
  - cbn [interp bind fst snd].
    (split; [reflexivity|]); (split; [reflexivity|]).
    split; [intros ? ? ? ? ? [=]|]. split; [intros ? [=]|].
    intros ? [= <-]. reflexivity.
Qed.

(** A POST request that passes the session, message and key checks runs the
    [try] block and, on a throw, the [catch] block. *)
Lemma handler_relays (env : Relay.ProcessEnv) (w : Relay.Remote)
    (req : Relay.ApiRequest) (s : Relay.Session) (msg : jsstring) :
  Relay.method req = js "POST" ->
  Relay.session_of w = Some s ->
  Relay.message (Relay.body req) = Some msg -> msg <> [] ->
  truthy_opt (Relay.OPENAI_API_KEY env) = true ->
  Relay.run w (Relay.handler env req)
  = match Relay.create w (call_params msg (history_of req)) with
    | Normal completion =>
        match Relay.first_content completion with
        | Some (c :: text) =>
            ({| Relay.status := 200;
                Relay.json := {| Relay.res_message := c :: text;
                                 Relay.res_usage := Relay.usage completion |} |},
             [Relay.SessionLookup;
              Relay.RemoteCall (call_params msg (history_of req))])
        | _ =>
            (Relay.send 500 "Failed to get AI response. Please try again later.",
             [Relay.SessionLookup;
              Relay.RemoteCall (call_params msg (history_of req));
              Relay.Logged (js "OpenAI API error:") EmptyResponse])
        end
    | Throw e =>
        (match e with
         | ErrorObj m =>
             if includes m (js "API key")
             then Relay.send 401 "Invalid OpenAI API key"
             else if includes m (js "quota")
             then Relay.send 429 "API quota exceeded"
             else Relay.send 500 "Failed to get AI response. Please try again later."
         | NonError =>
             Relay.send 500 "Failed to get AI response. Please try again later."
         end,
         [Relay.SessionLookup;
          Relay.RemoteCall (call_params msg (history_of req));
          Relay.Logged (js "OpenAI API error:") e])
    end.
Proof.
  intros Hm Hs Hmsg Hne Hk.
  unfold Relay.run, Relay.handler, Relay.handler_try.
  rewrite Hm, Hmsg, Hk.
  replace (str_eqb (js "POST") (js "POST")) with true by reflexivity.
  destruct msg as [|c0 msg]; [congruence|].
  cbn [negb truthy interp bind bind_try trigger try_catch Relay.answer app].
  rewrite Hs. rewrite prompt_shape.
  fold (history_of req). fold (call_params (c0 :: msg) (history_of req)).
  set (params := call_params (c0 :: msg) (history_of req)).
  cbn [interp]. unfold Relay.answer at 1.
  destruct (Relay.create w params) as [completion|e].
  - destruct (Relay.first_content completion) as [[|c text]|];
      reflexivity.
  - destruct e as [m|]; cbn [interp bind Relay.handler_catch trigger
                               Relay.answer app].
    + destruct (includes m (js "API key")); [reflexivity|].
      destruct (includes m (js "quota")); reflexivity.
    + reflexivity.
Qed.


(** C9. A request whose method is not POST is answered 405 "Method not
    allowed" at once: the handler is the program that returns this response,
    it performs no effect (no session lookup, no remote call) and does not
    depend on the body. *)
Theorem handler_method_not_allowed (env : Relay.ProcessEnv)
    (req : Relay.ApiRequest) :
  Relay.method req <> js "POST" ->
  Relay.handler env req = Ret (Relay.send 405 "Method not allowed")
  /\ forall w : Relay.Remote,
       Relay.run w (Relay.handler env req)
       = (Relay.send 405 "Method not allowed", []).
Proof.
  intros Hm. apply str_eqb_neq in Hm.
  assert (G : Relay.handler env req
              = Ret (Relay.send 405 "Method not allowed")).
  { unfold Relay.handler. rewrite Hm. reflexivity. }
  rewrite G. split; reflexivity.
Qed.

Ltac in_trace H :=
  cbn [In snd] in H; repeat (destruct H as [H|H]);
  try contradiction; try discriminate H; injection H as <-; reflexivity.

(** C10. An authenticated POST request with a non-empty message and no
    [conversationHistory] is handled as the same request with the empty
    history: the handler is the same program.  Its answer is never 400;
    every remote call it makes carries the prompt [system instruction, user
    message], and with the API key configured it makes exactly one. *)
Theorem handler_history_default (env : Relay.ProcessEnv) (w : Relay.Remote)
    (req : Relay.ApiRequest) (s : Relay.Session) (msg : jsstring) :
  Relay.method req = js "POST" ->
  Relay.session_of w = Some s ->
  Relay.message (Relay.body req) = Some msg -> msg <> [] ->
  Relay.conversationHistory (Relay.body req) = None ->
  let prompt :=
    [ {| Relay.role := js "system";
         Relay.content := Relay.MEDICAL_SYSTEM_PROMPT |};
      {| Relay.role := js "user"; Relay.content := msg |} ] in
  let result := Relay.run w (Relay.handler env req) in
  Relay.handler env req
  = Relay.handler env
      {| Relay.method := Relay.method req;
         Relay.body := {| Relay.message := Some msg;
                          Relay.conversationHistory := Some [] |} |}
  /\ Relay.status (fst result) <> 400%Z
  /\ (forall params, In (Relay.RemoteCall params) (snd result) ->
        Relay.messages params = prompt)
  /\ (truthy_opt (Relay.OPENAI_API_KEY env) = true ->
      exists params,
        filter Relay.is_remote_call (snd result) = [Relay.RemoteCall params]
        /\ Relay.messages params = prompt).
Proof.
  intros Hm Hs Hmsg Hne Hh prompt result.
  split.
  { unfold Relay.handler. cbn [Relay.method Relay.body Relay.message
                               Relay.conversationHistory].
    rewrite Hmsg, Hh. reflexivity. }
  destruct (truthy_opt (Relay.OPENAI_API_KEY env)) eqn:Hk.
  - subst result.
    rewrite (handler_relays env w req s msg Hm Hs Hmsg Hne Hk).
    unfold history_of. rewrite Hh.
    destruct (Relay.create w _) as [completion|e].
    + destruct (Relay.first_content completion) as [[|c text]|];
        (split; [cbn; discriminate|]);
        (split; [intros params F; in_trace F
                |intros _; eexists; split; reflexivity]).
    + split.
      { destruct e as [m|]; cbn [fst]; [|discriminate].
        destruct (includes m (js "API key")); [discriminate|].
        destruct (includes m (js "quota")); discriminate. }
      split; [intros params F; in_trace F|].
      intros _. eexists. split; reflexivity.
  - assert (G : result
                = (Relay.send 500 "OpenAI API key not configured",
                   [Relay.SessionLookup])).
    { subst result. unfold Relay.run, Relay.handler.
      rewrite Hm, Hmsg, Hk.
      replace (str_eqb (js "POST") (js "POST")) with true by reflexivity.
      destruct msg as [|c0 msg]; [congruence|].
      cbn [negb truthy interp bind trigger Relay.answer app]. rewrite Hs.
      reflexivity. }
    rewrite G. split; [cbn; discriminate|]. split.
    + intros params F. in_trace F.
    + discriminate.
Qed.


(** *** The text of a send, and the scenarios of the specification *)

(** An empty argument is no argument: the text is the input box. *)
Lemma sendMessage_empty_argument (c : State) :
  sendMessage c (Some []) = sendMessage c None.
Proof. reflexivity. Qed.

(** An argument made of white space is the text, and the send returns at the
    guard whatever the input box holds. *)
Lemma sendMessage_blank_argument (c : State) (s : jsstring) :
  s <> [] -> blank s -> sendMessage c (Some s) = Ret (Normal tt).
Proof.
  intros Hs Hb. unfold sendMessage.
  destruct s as [|x s]; [congruence|]. cbn [or_else truthy].
  apply trim_falsy_iff_blank in Hb. rewrite Hb. reflexivity.
Qed.

(** On the freshly mounted component, whose input box is empty, sends with
    no text, the empty text and a text of spaces do nothing; neither does a
    send while a request is pending. *)
Example blank_sends_do_nothing :
  sendMessage (ui (mounted clock0)) None = Ret (Normal tt)
  /\ sendMessage (ui (mounted clock0)) (Some []) = Ret (Normal tt)
  /\ sendMessage (ui (mounted clock0)) (Some (js "   ")) = Ret (Normal tt)
  /\ turn clock0 (sendMessage (ui waiting) (Some headache)) waiting
     = (Ret (Normal tt), waiting).
Proof. repeat split. Qed.

(** With "hello" typed, a send with the empty argument sends "hello". *)
Example empty_argument_sends_input_box :
  awaited_request
    (fst (turn clock0 (sendMessage (ui (world_with [] (js "hello") false))
                                   (Some []))
               (world_with [] (js "hello") false)))
  = Some (js "/api/chat/medical",
          chat_request (ui (world_with [] (js "hello") false)) None)
  /\ Relay.message (body (chat_request (ui (world_with [] (js "hello") false))
                                       None))
     = Some (js "hello").
Proof. split; reflexivity. Qed.

(** With fifteen turns in the conversation, the context window of the next
    send has exactly ten entries: turns 5 to 14, in their order. *)
Example fifteen_turns_window :
  awaited_request
    (fst (turn clock0 (sendMessage (ui fifteen_turns) (Some headache))
               fifteen_turns))
  = Some (js "/api/chat/medical",
          chat_request (ui fifteen_turns) (Some headache))
  /\ Relay.conversationHistory
       (body (chat_request (ui fifteen_turns) (Some headache)))
     = Some (map project (map turn_of (seq 5 10)))
  /\ length (map project (map turn_of (seq 5 10))) = 10%nat.
Proof. repeat split. Qed.

Lemma accepted_nonempty (c : State) (messageText : option jsstring) :
  accepted c messageText -> or_else messageText (inputMessage c) <> [].
Proof.
  intros [Ht _] E. rewrite E in Ht. discriminate Ht.
Qed.

(** The route on the request of an accepted send, when the user is signed
    in, the key is configured and the remote service rejects the call for
    quota: the response is 429. *)
Lemma route_over_quota (env : Relay.ProcessEnv) (srv : Relay.Remote)
    (s : Relay.Session) (c : State) (messageText : option jsstring)
    (m url : jsstring) :
  accepted c messageText ->
  Relay.session_of srv = Some s ->
  truthy_opt (Relay.OPENAI_API_KEY env) = true ->
  (forall params, Relay.create srv params = Throw (ErrorObj m)) ->
  includes m (js "API key") = false ->
  includes m (js "quota") = true ->
  EndToEnd.route env srv url (chat_request c messageText)
  = Normal {| status := 429;
              parsed := Normal (Relay.json
                                  (Relay.send 429 "API quota exceeded")) |}.
Proof.
  intros Ha Hs Hk Hc Hi Hq. unfold EndToEnd.route.
  rewrite (handler_relays env srv _ s (or_else messageText (inputMessage c)));
    try reflexivity; try assumption; [|exact (accepted_nonempty _ _ Ha)].
  rewrite Hc. cbn [fst]. rewrite Hi, Hq. reflexivity.
Qed.

(** The rate-limit scenario through both files: the component sends, the
    route answers 429, and the conversation gains the user turn and one
    assistant turn with the apology; the pending flag is false again. *)
Lemma rate_limit_apology (clock : nat -> N) (env : Relay.ProcessEnv)
    (srv : Relay.Remote) (s : Relay.Session) (w : World)
    (messageText : option jsstring) (m : jsstring) :
  accepted (ui w) messageText ->
  Relay.session_of srv = Some s ->
  truthy_opt (Relay.OPENAI_API_KEY env) = true ->
  (forall params, Relay.create srv params = Throw (ErrorObj m)) ->
  includes m (js "API key") = false ->
  includes m (js "quota") = true ->
  let done := perform clock (EndToEnd.route env srv)
                (sendMessage (ui w) messageText) w in
  exists u a,
    messages (ui (snd done)) = messages (ui w) ++ [u; a]
    /\ role u = user /\ role a = assistant /\ content a = APOLOGY
    /\ isLoading (ui (snd done)) = false.
Proof.
  intros Ha Hs Hk Hc Hi Hq done.
  destruct (perform_accepted clock (EndToEnd.route env srv) w messageText Ha)
    as (u & a & _ & Hm & _ & Hl & Hu & _ & Hra & Hf & _).
  exists u, a. repeat split; try assumption.
  apply Hf.
  rewrite (route_over_quota env srv s (ui w) messageText m _ Ha Hs Hk Hc Hi Hq).
  left. reflexivity.
Qed.

Example rate_limit_scenario :
  exists u a,
    messages (ui (snd (perform clock0
                         (EndToEnd.route with_key signed_in_over_quota)
                         (sendMessage (ui fifteen_turns) (Some headache))
                         fifteen_turns)))
    = messages (ui fifteen_turns) ++ [u; a]
    /\ role u = user /\ role a = assistant /\ content a = APOLOGY
    /\ isLoading (ui (snd (perform clock0
                             (EndToEnd.route with_key signed_in_over_quota)
                             (sendMessage (ui fifteen_turns) (Some headache))
                             fifteen_turns))) = false.
Proof.
  apply (rate_limit_apology clock0 with_key signed_in_over_quota
           {| Relay.session_user := js "pat" |} fifteen_turns (Some headache)
           (js "You exceeded your current quota, please check your plan and billing details."));
    try reflexivity.
  split; reflexivity.
Qed.

(** *** The theorems at sample inputs *)

Lemma sendMessage_context_window_witness :
  accepted (ui fifteen_turns) (Some headache)
  /\ exists init window,
       awaited_request
         (fst (turn clock0 (sendMessage (ui fifteen_turns) (Some headache))
                    fifteen_turns))
       = Some (js "/api/chat/medical", init)
       /\ Relay.conversationHistory (body init) = Some (map project window)
       /\ length window = 10%nat.
Proof.
  assert (H : accepted (ui fifteen_turns) (Some headache))
    by (split; reflexivity).
  split; [exact H|].
  destruct (sendMessage_context_window clock0 fifteen_turns (Some headache) H)
    as (init & older & window & Hreq & _ & _ & Hlen & Hh & _).
  exists init, window. repeat split; assumption.
Defined.

Lemma sendMessage_noop_witness :
  (blank (or_else (Some (js "   ")) (inputMessage (ui fifteen_turns)))
   \/ isLoading (ui fifteen_turns) = true)
  /\ turn clock0 (sendMessage (ui fifteen_turns) (Some (js "   ")))
          fifteen_turns
     = (Ret (Normal tt), fifteen_turns).
Proof.
  assert (H : blank (or_else (Some (js "   ")) (inputMessage (ui fifteen_turns)))
              \/ isLoading (ui fifteen_turns) = true)
    by (left; reflexivity).
  split; [exact H|].
  destruct (sendMessage_noop clock0 offline fifteen_turns (Some (js "   ")) H)
    as (_ & Ht & _).
  exact Ht.
Defined.

Lemma sendMessage_one_reply_witness :
  accepted (ui fifteen_turns) (Some headache)
  /\ length (messages (ui (snd (perform clock0 offline
                                  (sendMessage (ui fifteen_turns)
                                               (Some headache))
                                  fifteen_turns))))
     = 17%nat.
Proof.
  assert (H : accepted (ui fifteen_turns) (Some headache))
    by (split; reflexivity).
  split; [exact H|].
  destruct (sendMessage_one_reply clock0 fifteen_turns (Some headache)
              (Throw NonError) fifteen_turns fifteen_turns H)
    as (_ & _ & _ & Hnet).
  destruct (Hnet offline) as (u & a & _ & _ & _ & _ & Hlen).
  exact Hlen.
Defined.

Lemma sendMessage_failure_apology_witness :
  accepted (ui fifteen_turns) (Some headache)
  /\ (forall url init, failed (offline url init))
  /\ isLoading (ui (snd (perform clock0 offline
                           (sendMessage (ui fifteen_turns) (Some headache))
                           fifteen_turns)))
     = false.
Proof.
  assert (H : accepted (ui fifteen_turns) (Some headache))
    by (split; reflexivity).
  assert (F : forall url init, failed (offline url init))
    by (intros url init; exact I).
  split; [exact H|]. split; [exact F|].
  destruct (sendMessage_failure_apology clock0 offline fifteen_turns
              (Some headache) H F)
    as (_ & _ & _ & Hl & _).
  exact Hl.
Defined.

Lemma handler_try_complete_witness :
  fst (Relay.run signed_in_answering (Relay.handler_try headache []))
  = Normal {| Relay.status := 200;
              Relay.json := {| Relay.res_message := js "Try resting.";
                               Relay.res_usage := Relay.usage two_choices |} |}
  /\ fst (Relay.run signed_in_silent (Relay.handler_try headache []))
     = Throw EmptyResponse.
Proof.
  split.
  - destruct (handler_try_complete signed_in_answering headache [])
      as (_ & _ & Hok & _).
    apply (Hok two_choices _ _ _ (js "Try resting.") eq_refl eq_refl eq_refl
             eq_refl).
    discriminate.
  - destruct (handler_try_complete signed_in_silent headache [])
      as (_ & _ & _ & Hempty & _).
    apply (Hempty _ eq_refl). left. reflexivity.
Defined.


Lemma handler_method_not_allowed_witness :
  Relay.method get <> js "POST"
  /\ Relay.handler with_key get = Ret (Relay.send 405 "Method not allowed").
Proof.
  assert (H : Relay.method get <> js "POST")
    by (intros E; vm_compute in E; discriminate E).
  split; [exact H|].
  destruct (handler_method_not_allowed with_key get H) as [Hp _].
  exact Hp.
Defined.

Lemma handler_history_default_witness :
  Relay.method (post (Some headache) None) = js "POST"
  /\ Relay.session_of signed_in_over_quota
     = Some {| Relay.session_user := js "pat" |}
  /\ Relay.message (Relay.body (post (Some headache) None)) = Some headache
  /\ headache <> []
  /\ Relay.conversationHistory (Relay.body (post (Some headache) None)) = None
  /\ Relay.status (fst (Relay.run signed_in_over_quota
                          (Relay.handler with_key
                                         (post (Some headache) None))))
     <> 400%Z.
Proof.
  assert (Hne : headache <> []) by discriminate.
  repeat (split; [first [reflexivity | exact Hne]|]).
  destruct (handler_history_default with_key signed_in_over_quota
              (post (Some headache) None)
              {| Relay.session_user := js "pat" |} headache
              eq_refl eq_refl eq_refl Hne eq_refl)
    as (_ & Hs & _).
  exact Hs.
Defined.

(* ===================================================================== *)
(** ** Further properties of the route *)
(* ===================================================================== *)

(** Running the handler, check by check. *)
Lemma handler_run (env : Relay.ProcessEnv) (w : Relay.Remote)
    (req : Relay.ApiRequest) :
  Relay.run w (Relay.handler env req)
  = if negb (str_eqb (Relay.method req) (js "POST"))
    then (Relay.send 405 "Method not allowed", [])
    else
      match Relay.session_of w with
      | None => (Relay.send 401 "Unauthorized", [Relay.SessionLookup])
      | Some _ =>
          match Relay.message (Relay.body req) with
          | Some (c :: text) =>
              if negb (truthy_opt (Relay.OPENAI_API_KEY env))
              then (Relay.send 500 "OpenAI API key not configured",
                    [Relay.SessionLookup])
              else relayed w (c :: text) (history_of req)
          | _ => (Relay.send 400 "Message is required", [Relay.SessionLookup])
          end
      end.
Proof.
  destruct (str_eqb (Relay.method req) (js "POST")) eqn:Hm; cbn [negb].
  - apply str_eqb_eq in Hm.
    destruct (Relay.session_of w) as [s|] eqn:Hs.
    + destruct (Relay.message (Relay.body req)) as [[|c text]|] eqn:Hmsg.
      * unfold Relay.run, Relay.handler. rewrite Hm, Hmsg.
        cbn [str_eqb interp bind trigger Relay.answer app].
        replace (str_eqb (js "POST") (js "POST")) with true by reflexivity.
        cbn [negb interp bind trigger Relay.answer app]. rewrite Hs.
        reflexivity.
      * destruct (truthy_opt (Relay.OPENAI_API_KEY env)) eqn:Hk; cbn [negb].
        -- apply (handler_relays env w req s (c :: text) Hm Hs Hmsg);
             [discriminate|exact Hk].
        -- unfold Relay.run, Relay.handler. rewrite Hm, Hmsg, Hk.
           replace (str_eqb (js "POST") (js "POST")) with true by reflexivity.
           cbn [negb truthy interp bind trigger Relay.answer app]. rewrite Hs.
           reflexivity.
      * unfold Relay.run, Relay.handler. rewrite Hm, Hmsg.
        replace (str_eqb (js "POST") (js "POST")) with true by reflexivity.
        cbn [negb interp bind trigger Relay.answer app]. rewrite Hs.
        reflexivity.
    + unfold Relay.run, Relay.handler. rewrite Hm.
      replace (str_eqb (js "POST") (js "POST")) with true by reflexivity.
      cbn [negb interp bind trigger Relay.answer app]. rewrite Hs.
      reflexivity.
  - unfold Relay.run, Relay.handler. rewrite Hm. reflexivity.
Qed.

Ltac route_cases env w req :=
  rewrite (handler_run env w req); unfold relayed;
  destruct (str_eqb (Relay.method req) (js "POST")) eqn:Hm; cbn [negb];
  [ destruct (Relay.session_of w) as [s|] eqn:Hs;
    [ destruct (Relay.message (Relay.body req)) as [[|c text]|] eqn:Hmsg;
      [ | destruct (truthy_opt (Relay.OPENAI_API_KEY env)) eqn:Hk; cbn [negb];
          [ destruct (Relay.create w _) as [completion|[m|]] eqn:Hc;
            [ destruct (Relay.first_content completion) as [[|x t]|] eqn:Hf
            | destruct (includes m (js "API key")) eqn:Hi;
              [ | destruct (includes m (js "quota")) eqn:Hq ]
            | ]
          | ]
        | ]
    | ]
  | ].

Ltac pick_disjunct :=
  repeat lazymatch goal with
         | |- ?a = ?b \/ _ =>
             tryif constr_eq a b then (left; reflexivity) else right
         end.

(** X1. Every response of the route is one of seven fixed pairs of status
    and message, without usage, or a 200 whose message is the non-empty text
    of the first choice of the remote completion, with its usage: the text of
    a remote error never reaches the client. *)
Theorem handler_response_shape (env : Relay.ProcessEnv) (w : Relay.Remote)
    (req : Relay.ApiRequest) :
  let res := fst (Relay.run w (Relay.handler env req)) in
  (In res fixed_responses
   /\ Relay.res_usage (Relay.json res) = None
   /\ Relay.status res <> 200%Z)
  \/ (Relay.status res = 200%Z
      /\ Relay.res_message (Relay.json res) <> []
      /\ exists msg completion,
           Relay.message (Relay.body req) = Some msg
           /\ Relay.create w (call_params msg (history_of req))
              = Normal completion
           /\ Relay.first_content completion
              = Some (Relay.res_message (Relay.json res))
           /\ Relay.res_usage (Relay.json res) = Relay.usage completion).
Proof.
  cbv zeta. route_cases env w req; cbn [fst];
    try (left; split;
         [ unfold fixed_responses; cbn [In]; pick_disjunct
         | split; [reflexivity|discriminate] ]).
  right. cbn [Relay.status Relay.json Relay.res_message Relay.res_usage].
  split; [reflexivity|]. split; [discriminate|].
  exists (c :: text), completion. repeat split; assumption.
Qed.

(** *** The route on any body *)

Lemma visit_some (l : list Relay.ChatMessage) :
  Untyped.visit (map Some l) = Normal l.
Proof.
  induction l as [|m l IH]; [reflexivity|].
  cbn [map Untyped.visit]. rewrite IH. reflexivity.
Qed.

Lemma visit_normal (entries : list (option Relay.ChatMessage))
    (l : list Relay.ChatMessage) :
  Untyped.visit entries = Normal l -> entries = map Some l.
Proof.
  revert l. induction entries as [|[m|] entries IH]; intros l;
    cbn [Untyped.visit].
  - intros [= <-]. reflexivity.
  - destruct (Untyped.visit entries) as [l'|e]; [|discriminate].
    intros [= <-]. cbn [map]. rewrite (IH l' eq_refl). reflexivity.
  - discriminate.
Qed.

Lemma visit_throw (entries : list (option Relay.ChatMessage)) (e : Thrown) :
  Untyped.visit entries = Throw e ->
  In None entries
  /\ e = ErrorObj (js "Cannot read properties of null (reading 'role')").
Proof.
  induction entries as [|[m|] entries IH]; cbn [Untyped.visit In].
  - discriminate.
  - destruct (Untyped.visit entries) as [l'|e']; [discriminate|].
    intros [= <-]. destruct (IH eq_refl) as [Hin He]. split; [right|];
      assumption.
  - intros [= <-]. split; [left|]; reflexivity.
Qed.

Lemma visit_null (entries : list (option Relay.ChatMessage)) :
  In None entries -> exists e, Untyped.visit entries = Throw e.
Proof.
  induction entries as [|[m|] entries IH]; cbn [Untyped.visit In].
  - intros [].
  - intros [H|H]; [discriminate H|]. destruct (IH H) as [e ->].
    exists e. reflexivity.
  - intros _. eexists. reflexivity.
Qed.

Lemma mapped_normal_iff (h : Untyped.HistoryValue)
    (l : list Relay.ChatMessage) :
  Untyped.mapped (defaulted h) = Normal l <-> history_is h l.
Proof.
  unfold history_is. destruct h as [| | |entries]; cbn [defaulted Untyped.mapped].
  - cbn [Untyped.visit]. split.
    + intros [= <-]. left. split; reflexivity.
    + intros [[_ ->]|H]; [reflexivity|discriminate H].
  - split; [discriminate|]. intros [[H _]|H]; discriminate H.
  - split; [discriminate|]. intros [[H _]|H]; discriminate H.
  - split.
    + intros H. right. f_equal. now apply visit_normal.
    + intros [[H _]|[= ->]]; [discriminate H|]. apply visit_some.
Qed.

Lemma mapped_throw (h : Untyped.HistoryValue) (e : Thrown) :
  Untyped.mapped (defaulted h) = Throw e ->
  history_broken h
  /\ exists m, e = ErrorObj m
               /\ includes m (js "API key") = false
               /\ includes m (js "quota") = false.
Proof.
  unfold history_broken.
  destruct h as [| | |entries]; cbn [defaulted Untyped.mapped Untyped.visit].
  - discriminate.
  - intros [= <-]. split; [left; reflexivity|].
    eexists. split; [reflexivity|]. split; vm_compute; reflexivity.
  - intros [= <-]. split; [right; left; reflexivity|].
    eexists. split; [reflexivity|]. split; vm_compute; reflexivity.
  - intros H. destruct (visit_throw _ _ H) as [Hin ->]. split.
    + right. right. exists entries. split; [reflexivity|exact Hin].
    + eexists. split; [reflexivity|]. split; vm_compute; reflexivity.
Qed.

Lemma broken_throws (h : Untyped.HistoryValue) :
  history_broken h -> exists e, Untyped.mapped (defaulted h) = Throw e.
Proof.
  intros [->|[->|(entries & -> & Hin)]]; cbn [defaulted Untyped.mapped].
  - eexists. reflexivity.
  - eexists. reflexivity.
  - now apply visit_null.
Qed.

(** The [try] and [catch] blocks after the session lookup. *)
Lemma try_block_run (w : Relay.Remote) (msg : jsstring)
    (l : list Relay.ChatMessage) :
  interp (Relay.answer w)
    (res <- try_catch (Relay.handler_try msg l) Relay.handler_catch ;;
     Ret (Normal res))
    [Relay.SessionLookup]
  = (Normal (fst (relayed w msg l)), snd (relayed w msg l)).
Proof.
  unfold relayed, Relay.handler_try.
  cbn [interp bind bind_try trigger try_catch Relay.answer app].
  rewrite prompt_shape. fold (call_params msg l).
  set (params := call_params msg l).
  cbn [interp]. unfold Relay.answer at 1.
  destruct (Relay.create w params) as [completion|e].
  - destruct (Relay.first_content completion) as [[|c text]|]; reflexivity.
  - destruct e as [m|]; cbn [interp bind Relay.handler_catch trigger
                               Relay.answer app fst snd].
    + destruct (includes m (js "API key")); [reflexivity|].
      destruct (includes m (js "quota")); reflexivity.
    + reflexivity.
Qed.

(** Running the handler on any body, check by check. *)
Lemma untyped_run (env : Relay.ProcessEnv) (w : Relay.Remote)
    (method : jsstring) (body : Untyped.BodyValue) :
  Relay.run w (Untyped.handler env method body)
  = if negb (str_eqb method (js "POST"))
    then (Normal (Relay.send 405 "Method not allowed"), [])
    else
      match Relay.session_of w with
      | None => (Normal (Relay.send 401 "Unauthorized"), [Relay.SessionLookup])
      | Some _ =>
          match body with
          | Untyped.NullBody =>
              (Throw (ErrorObj (js "Cannot destructure property 'message' of 'req.body' as it is null.")),
               [Relay.SessionLookup])
          | Untyped.Body (Some (c :: text)) h =>
              if negb (truthy_opt (Relay.OPENAI_API_KEY env))
              then (Normal (Relay.send 500 "OpenAI API key not configured"),
                    [Relay.SessionLookup])
              else
                match Untyped.mapped (defaulted h) with
                | Normal l =>
                    (Normal (fst (relayed w (c :: text) l)),
                     snd (relayed w (c :: text) l))
                | Throw e =>
                    (Normal (Relay.send 500
                       "Failed to get AI response. Please try again later."),
                     [Relay.SessionLookup;
                      Relay.Logged (js "OpenAI API error:") e])
                end
          | Untyped.Body _ _ =>
              (Normal (Relay.send 400 "Message is required"),
               [Relay.SessionLookup])
          end
      end.
Proof.
  unfold Relay.run, Untyped.handler.
  destruct (str_eqb method (js "POST")); cbn [negb]; [|reflexivity].
  cbn [interp bind trigger Relay.answer app].
  destruct (Relay.session_of w) as [s|]; [|reflexivity].
  destruct body as [|[[|c text]|] h]; try reflexivity.
  cbn [truthy negb].
  destruct (truthy_opt (Relay.OPENAI_API_KEY env)); cbn [negb];
    [|reflexivity].
  fold (defaulted h). unfold Untyped.handler_try.
  destruct (Untyped.mapped (defaulted h)) as [l|e] eqn:Em.
  - apply try_block_run.
  - destruct (mapped_throw h e Em) as (_ & m & -> & Hi & Hq).
    cbn [interp bind try_catch Relay.handler_catch trigger Relay.answer app].
    rewrite Hi, Hq. reflexivity.
Qed.

(** On a body of the shape the component sends, the handler is
    [Relay.handler]. *)
Lemma untyped_typed (env : Relay.ProcessEnv) (w : Relay.Remote)
    (req : Relay.ApiRequest) :
  Relay.run w (Untyped.handler env (Relay.method req)
                 (Untyped.of_typed (Relay.body req)))
  = (Normal (fst (Relay.run w (Relay.handler env req))),
     snd (Relay.run w (Relay.handler env req))).
Proof.
  rewrite untyped_run, handler_run. unfold Untyped.of_typed, history_of.
  destruct (str_eqb (Relay.method req) (js "POST")); cbn [negb];
    [|reflexivity].
  destruct (Relay.session_of w); [|reflexivity].
  destruct (Relay.message (Relay.body req)) as [[|c text]|]; try reflexivity.
  destruct (truthy_opt (Relay.OPENAI_API_KEY env)); cbn [negb];
    [|reflexivity].
  destruct (Relay.conversationHistory (Relay.body req)) as [history|];
    cbn [defaulted Untyped.mapped Untyped.visit].
  - rewrite visit_some. reflexivity.
  - reflexivity.
Qed.

Lemma first_content_inv (completion : Relay.ChatCompletion)
    (text : jsstring) :
  Relay.first_content completion = Some text ->
  exists top rest m,
    Relay.choices completion = top :: rest
    /\ Relay.choice_message top = Some m
    /\ Relay.choice_content m = Some text.
Proof.
  unfold Relay.first_content.
  destruct (Relay.choices completion) as [|top rest]; [discriminate|].
  destruct (Relay.choice_message top) as [m|] eqn:Em; [|discriminate].
  intros Ht. exists top, rest, m. repeat split; assumption.
Qed.

Ltac show_passes :=
  repeat split;
  first [ assumption | now apply str_eqb_eq | discriminate | congruence ].

Ltac untyped_cases env w method body :=
  rewrite (untyped_run env w method body);
  destruct (str_eqb method (js "POST")) eqn:Hm; cbn [negb];
  [ destruct (Relay.session_of w) as [s|] eqn:Hs;
    [ destruct body as [|[[|c text]|] h];
      [ | | destruct (truthy_opt (Relay.OPENAI_API_KEY env)) eqn:Hk;
            cbn [negb];
            [ destruct (Untyped.mapped (defaulted h)) as [l|e] eqn:Em;
              [ unfold relayed;
                destruct (Relay.create w _) as [completion|[m|]] eqn:Hc;
                [ destruct (Relay.first_content completion) as [[|x t]|] eqn:Hf
                | destruct (includes m (js "API key")) eqn:Hi;
                  [ | destruct (includes m (js "quota")) eqn:Hq ]
                | ]
              | ]
            | ]
        | ]
    | ]
  | ].

(** X2. On any body, the route answers 200 exactly when the request is a
    POST with a session, a non-empty message and a configured key, its
    history is absent or an array without a null entry, and the remote call
    returns a completion whose first choice has a non-empty text; the
    response then carries that text and the usage. *)
Theorem handler_ok_iff (env : Relay.ProcessEnv) (w : Relay.Remote)
    (method : jsstring) (body : Untyped.BodyValue) :
  let result := fst (Relay.run w (Untyped.handler env method body)) in
  (forall msg h l completion top rest m text,
      passes_checks env w method body msg h ->
      history_is h l ->
      Relay.create w (call_params msg l) = Normal completion ->
      Relay.choices completion = top :: rest ->
      Relay.choice_message top = Some m ->
      Relay.choice_content m = Some text -> text <> [] ->
      result = Normal {| Relay.status := 200;
                         Relay.json :=
                           {| Relay.res_message := text;
                              Relay.res_usage := Relay.usage completion |} |})
  /\ (answered_200 result ->
      exists msg h l completion top rest m text,
        passes_checks env w method body msg h
        /\ history_is h l
        /\ Relay.create w (call_params msg l) = Normal completion
        /\ Relay.choices completion = top :: rest
        /\ Relay.choice_message top = Some m
        /\ Relay.choice_content m = Some text /\ text <> []
        /\ result = Normal {| Relay.status := 200;
                              Relay.json :=
                                {| Relay.res_message := text;
                                   Relay.res_usage := Relay.usage completion |} |}).
Proof.
  cbv zeta. split.
  - intros msg h l completion top rest m text (-> & Hs & -> & Hne & Hk) Hh Hc
      Hch Hcm Hct Hnt.
    rewrite untyped_run.
    replace (str_eqb (js "POST") (js "POST")) with true by reflexivity.
    cbn [negb]. destruct (Relay.session_of w); [|congruence].
    destruct msg as [|c0 msg]; [congruence|]. rewrite Hk. cbn [negb].
    apply mapped_normal_iff in Hh. rewrite Hh. unfold relayed.
    rewrite Hc, (first_content_top _ _ _ _ _ Hch Hcm Hct).
    destruct text; [congruence|]. reflexivity.
  - unfold answered_200. untyped_cases env w method body; cbn [fst];
      intros (res & Hr & Hst);
      try discriminate Hr;
      try (injection Hr as <-; discriminate Hst).
    destruct (first_content_inv _ _ Hf) as (top & rest & m & Hch & Hcm & Hct).
    apply mapped_normal_iff in Em.
    exists (c :: text), h, l, completion, top, rest, m, (x :: t).
    split.
    { show_passes. }
    repeat split; try assumption. discriminate.
Qed.

(** X3. On any body, the route performs its effects in a fixed order and at
    most once each: nothing for a method other than POST; otherwise the
    session lookup, then possibly the remote call, then possibly one line on
    the console.  The remote call is made exactly when the request passes
    the four checks (a message of white space alone passes) and its history
    is absent or an array without a null entry, and it carries the prompt
    built from that message and history. *)
Theorem handler_effects (env : Relay.ProcessEnv) (w : Relay.Remote)
    (method : jsstring) (body : Untyped.BodyValue) :
  let seen := snd (Relay.run w (Untyped.handler env method body)) in
  (seen = []
   \/ seen = [Relay.SessionLookup]
   \/ (exists e,
         seen = [Relay.SessionLookup; Relay.Logged (js "OpenAI API error:") e])
   \/ (exists params,
         seen = [Relay.SessionLookup; Relay.RemoteCall params]
         \/ exists e,
              seen = [Relay.SessionLookup; Relay.RemoteCall params;
                      Relay.Logged (js "OpenAI API error:") e]))
  /\ (seen = [] <-> method <> js "POST")
  /\ (forall params,
        In (Relay.RemoteCall params) seen
        <-> exists msg h l,
              passes_checks env w method body msg h
              /\ history_is h l
              /\ params = call_params msg l).
Proof.
  cbv zeta. split; [|split].
  - untyped_cases env w method body; cbn [snd];
      first [ left; reflexivity
            | right; left; reflexivity
            | right; right; left; eexists; reflexivity
            | right; right; right; eexists; left; reflexivity
            | right; right; right; eexists; right; eexists; reflexivity ].
  - untyped_cases env w method body; cbn [snd];
      (split;
       [ try discriminate; intros _ E; apply str_eqb_neq in E; congruence
       | intros E; try (apply str_eqb_eq in Hm; congruence);
         apply str_eqb_neq in Hm; reflexivity ]).
  - intros params. split.
    + untyped_cases env w method body; cbn [snd In]; intros F;
        repeat (destruct F as [F|F]); try discriminate F; try contradiction;
        injection F as <-; apply mapped_normal_iff in Em;
        exists (c :: text), h, l;
        (split; [show_passes|]);
        (split; [exact Em|reflexivity]).
    + intros (msg & h & l & (-> & Hs & -> & Hne & Hk) & Hh & ->).
      rewrite untyped_run.
      replace (str_eqb (js "POST") (js "POST")) with true by reflexivity.
      cbn [negb]. destruct (Relay.session_of w); [|congruence].
      destruct msg as [|c0 msg]; [congruence|]. rewrite Hk. cbn [negb].
      apply mapped_normal_iff in Hh. rewrite Hh. unfold relayed.
      destruct (Relay.create w _) as [completion|e].
      * destruct (Relay.first_content completion) as [[|x t]|]; cbn [snd In];
          tauto.
      * cbn [snd In]. tauto.
Qed.

(** X4. On any body, the route writes to the console exactly when the
    request passed the four checks and the answer is not 200.  Then either
    the history could not be mapped (it is null, not an array, or has a null
    entry) and no remote call was made, or the remote call was made and what
    is logged is its error or the empty-response error.  Failures of the
    four checks are not logged. *)
Theorem handler_logs_iff (env : Relay.ProcessEnv) (w : Relay.Remote)
    (method : jsstring) (body : Untyped.BodyValue) :
  let result := fst (Relay.run w (Untyped.handler env method body)) in
  let seen := snd (Relay.run w (Untyped.handler env method body)) in
  ((exists label e, In (Relay.Logged label e) seen)
   <-> (exists msg h, passes_checks env w method body msg h)
       /\ ~ answered_200 result)
  /\ (forall label e,
        In (Relay.Logged label e) seen ->
        label = js "OpenAI API error:"
        /\ ((exists msg h,
               body = Untyped.Body (Some msg) h /\ history_broken h
               /\ forall params, ~ In (Relay.RemoteCall params) seen)
            \/ (exists params,
                  In (Relay.RemoteCall params) seen
                  /\ (e = EmptyResponse
                      \/ Relay.create w params = Throw e)))).
Proof.
  cbv zeta. unfold answered_200. split; [split|].
  - untyped_cases env w method body; cbn [fst snd In];
      intros (label & e0 & F); repeat (destruct F as [F|F]);
      try discriminate F; try contradiction;
      (split;
       [ exists (c :: text), h; show_passes
       | intros (res & [= <-] & Hst); discriminate Hst ]).
  - intros [(msg & h0 & (-> & Hsn & -> & Hne & Hk)) Hnot].
    revert Hnot. rewrite untyped_run.
    replace (str_eqb (js "POST") (js "POST")) with true by reflexivity.
    cbn [negb]. destruct (Relay.session_of w); [|congruence].
    destruct msg as [|c0 msg]; [congruence|]. rewrite Hk. cbn [negb].
    destruct (Untyped.mapped (defaulted h0)) as [l|e].
    2:{ intros _. do 2 eexists. cbn [snd In]. right. left. reflexivity. }
    unfold relayed. destruct (Relay.create w _) as [completion|e].
    + destruct (Relay.first_content completion) as [[|x t]|]; cbn [fst snd In];
        intros Hnot;
        try (do 2 eexists; right; right; left; reflexivity).
      exfalso. apply Hnot. eexists. split; reflexivity.
    + intros _. do 2 eexists. cbn [snd In]. right. right. left. reflexivity.
  - intros label e0.
    untyped_cases env w method body; cbn [snd In]; intros F;
      repeat (destruct F as [F|F]); try discriminate F; try contradiction;
      injection F as <- <-; (split; [reflexivity|]);
      first [ right; eexists; split; [right; left; reflexivity|];
              first [left; reflexivity | right; exact Hc]
            | left; exists (c :: text), h;
              split; [reflexivity|];
              split; [exact (proj1 (mapped_throw _ _ Em))|];
              intros params G; repeat (destruct G as [G|G]);
              try discriminate G; contradiction ].
Qed.



(* ===================================================================== *)
(** ** The component and the route together *)
(* ===================================================================== *)

(** What the route answers to the request of an accepted send. *)
Lemma route_on_send (env : Relay.ProcessEnv) (srv : Relay.Remote)
    (c : State) (messageText : option jsstring) (url : jsstring) :
  accepted c messageText ->
  EndToEnd.route env srv url (chat_request c messageText)
  = let res :=
      match Relay.session_of srv with
      | None => Relay.send 401 "Unauthorized"
      | Some _ =>
          if negb (truthy_opt (Relay.OPENAI_API_KEY env))
          then Relay.send 500 "OpenAI API key not configured"
          else fst (relayed srv (or_else messageText (inputMessage c))
                            (map project (slice (-10) (messages c))))
      end in
    Normal {| status := Relay.status res; parsed := Normal (Relay.json res) |}.
Proof.
  intros Ha. pose proof (accepted_nonempty _ _ Ha) as Hne.
  unfold EndToEnd.route. rewrite handler_run.
  cbn [chat_request method body Relay.method Relay.body Relay.message].
  replace (str_eqb (js "POST") (js "POST")) with true by reflexivity.
  cbn [negb]. unfold history_of.
  cbn [Relay.body Relay.conversationHistory].
  destruct (or_else messageText (inputMessage c)) as [|x text];
    [congruence|].
  destruct (Relay.session_of srv); [|reflexivity].
  destruct (truthy_opt (Relay.OPENAI_API_KEY env)); reflexivity.
Qed.

Ltac relayed_cases srv :=
  unfold relayed;
  destruct (Relay.create srv _) as [completion|[m|]] eqn:Hc;
  [ destruct (Relay.first_content completion) as [[|x t]|] eqn:Hf
  | destruct (includes m (js "API key")) eqn:Hi;
    [ | destruct (includes m (js "quota")) eqn:Hq ]
  | ].

(** X5. The request of an accepted send is never answered 400 or 405 by the
    route: its method is POST and its message, which passed the component's
    guard, is not empty.  The status is 200, 401, 429 or 500, and the body
    always parses. *)
Theorem route_status_of_send (env : Relay.ProcessEnv) (srv : Relay.Remote)
    (c : State) (messageText : option jsstring) (url : jsstring) :
  accepted c messageText ->
  exists response data,
    EndToEnd.route env srv url (chat_request c messageText) = Normal response
    /\ parsed response = Normal data
    /\ In (status response) [200; 401; 429; 500]%Z.
Proof.
  intros Ha. rewrite (route_on_send env srv c messageText url Ha). cbv zeta.
  do 2 eexists. split; [reflexivity|]. split; [reflexivity|].
  cbn [status].
  destruct (Relay.session_of srv); [|cbn; tauto].
  destruct (truthy_opt (Relay.OPENAI_API_KEY env)); cbn [negb]; [|cbn; tauto].
  relayed_cases srv; cbn; tauto.
Qed.

(** X6. An accepted send through the route, with nothing in between, ends
    with the user turn and one assistant turn appended and the pending flag
    cleared.  The assistant turn shows the first choice of the remote
    completion when the user is signed in on the server, the key is
    configured and that text is not empty; in every other case it shows the
    apology.  The remote service is asked with the system instruction, the
    last ten turns and the text. *)
Theorem send_through_route (clock : nat -> N) (env : Relay.ProcessEnv)
    (srv : Relay.Remote) (w : World) (messageText : option jsstring) :
  accepted (ui w) messageText ->
  let done := perform clock (EndToEnd.route env srv)
                (sendMessage (ui w) messageText) w in
  exists u a,
    messages (ui (snd done)) = messages (ui w) ++ [u; a]
    /\ role u = user
    /\ content u = or_else messageText (inputMessage (ui w))
    /\ role a = assistant
    /\ content a = reply_text env srv (ui w) messageText
    /\ isLoading (ui (snd done)) = false.
Proof.
  intros Ha done.
  destruct (perform_accepted clock (EndToEnd.route env srv) w messageText Ha)
    as (u & a & _ & Hm & _ & Hl & Hu & Hcu & Hra & Hfail & Hok).
  exists u, a. repeat split; try assumption.
  rewrite (route_on_send env srv (ui w) messageText _ Ha) in Hfail, Hok.
  cbv zeta in Hfail, Hok. unfold reply_text.
  destruct (Relay.session_of srv).
  2:{ apply Hfail. left. reflexivity. }
  destruct (truthy_opt (Relay.OPENAI_API_KEY env)); cbn [negb] in *.
  2:{ apply Hfail. left. reflexivity. }
  unfold relayed in Hfail, Hok.
  destruct (Relay.create srv _) as [completion|[m|]].
  - destruct (Relay.first_content completion) as [[|x t]|].
    + apply Hfail. left. reflexivity.
    + cbn [fst Relay.status Relay.json] in Hok.
      exact (Hok _ _ eq_refl eq_refl eq_refl).
    + apply Hfail. left. reflexivity.
  - apply Hfail. left. cbn [fst].
    destruct (includes m (js "API key")); [reflexivity|].
    destruct (includes m (js "quota")); reflexivity.
  - apply Hfail. left. reflexivity.
Qed.

(* ===================================================================== *)
(** ** Further properties of the component *)
(* ===================================================================== *)

(** *** One exchange *)

(** X7. [handleKeyPress] calls [preventDefault] exactly on Enter without
    Shift.  Any other key, Enter with Shift, and Enter on a blank input box
    or while a request is pending change nothing.  Enter on a text that is
    not blank, with nothing pending, sends the content of the input box as it
    is, white space around it included, empties the box and sets the pending
    flag. *)
Theorem handleKeyPress_enter (clock : nat -> N) (w : World)
    (e : KeyboardEvent) :
  let enter := key e = js "Enter" /\ shiftKey e = false in
  let after := turn clock (snd (handleKeyPress (ui w) e)) w in
  (fst (handleKeyPress (ui w) e) = true <-> enter)
  /\ (~ enter -> after = (Ret (Normal tt), w))
  /\ (blank (inputMessage (ui w)) \/ isLoading (ui w) = true ->
      after = (Ret (Normal tt), w))
  /\ (enter -> ~ blank (inputMessage (ui w)) -> isLoading (ui w) = false ->
      awaited_request (fst after)
      = Some (js "/api/chat/medical", chat_request (ui w) None)
      /\ Relay.message (body (chat_request (ui w) None))
         = Some (inputMessage (ui w))
      /\ inputMessage (ui (snd after)) = []
      /\ isLoading (ui (snd after)) = true).
Proof.
  cbv zeta. unfold handleKeyPress.
  assert (He : str_eqb (key e) (js "Enter") && negb (shiftKey e) = true
               <-> key e = js "Enter" /\ shiftKey e = false).
  { rewrite andb_true_iff, str_eqb_eq, negb_true_iff. tauto. }
  destruct (str_eqb (key e) (js "Enter") && negb (shiftKey e)) eqn:E;
    cbn [fst snd].
  - assert (Hen : key e = js "Enter" /\ shiftKey e = false)
      by (apply He; reflexivity).
    split; [tauto|]. split; [tauto|]. split.
    + intros Hb.
      assert (G : sendMessage (ui w) None = Ret (Normal tt)).
      { unfold sendMessage. cbn [or_else]. destruct Hb as [Hb|Hb].
        - apply trim_falsy_iff_blank in Hb. rewrite Hb. reflexivity.
        - rewrite Hb, orb_true_r. reflexivity. }
      rewrite G. reflexivity.
    + intros _ Hnb Hl.
      assert (Ha : accepted (ui w) None).
      { split; [|exact Hl]. cbn [or_else].
        destruct (truthy (trim (inputMessage (ui w)))) eqn:Ht; [reflexivity|].
        apply trim_falsy_iff_blank in Ht. contradiction. }
      start_send Ha. repeat split.
  - split; [split; [discriminate|]|].
    { intros H. apply He in H. discriminate H. }
    split; [reflexivity|]. split; [reflexivity|].
    intros H. apply He in H. discriminate H.
Qed.

(** X8. While a send is in flight nothing else can be sent: after an
    accepted send has suspended, the input box is empty, the pending flag is
    set, and every further send, with any argument, returns at the guard.
    [clearChat] does not lift this. *)
Theorem sendMessage_blocks_sends (clock : nat -> N) (w : World)
    (messageText : option jsstring) :
  accepted (ui w) messageText ->
  let w1 := snd (turn clock (sendMessage (ui w) messageText) w) in
  let w2 := snd (turn clock clearChat w1) in
  inputMessage (ui w1) = []
  /\ isLoading (ui w1) = true
  /\ (forall next, turn clock (sendMessage (ui w1) next) w1
                   = (Ret (Normal tt), w1))
  /\ isLoading (ui w2) = true
  /\ (forall next, turn clock (sendMessage (ui w2) next) w2
                   = (Ret (Normal tt), w2)).
Proof.
  intros Ha. start_send Ha. unfold clearChat. run_prog.
  repeat split; intros next; unfold sendMessage;
    cbn [isLoading]; rewrite orb_true_r; reflexivity.
Qed.

(** X9. [clearChat] does not cancel a send in flight.  When the chat is
    cleared after an accepted send and the answer arrives afterwards, the
    conversation is the welcome-back turn followed by the answer to the
    cleared question: two turns, the user turn gone, the pending flag
    cleared. *)
Theorem clearChat_keeps_late_reply (clock : nat -> N) (w : World)
    (messageText : option jsstring) (o : Outcome Response) :
  accepted (ui w) messageText ->
  let sent := turn clock (sendMessage (ui w) messageText) w in
  let cleared := snd (turn clock clearChat (snd sent)) in
  let fetched := turn clock (settle_fetch o (fst sent)) cleared in
  let read := turn clock (settle_json (fst fetched)) (snd fetched) in
  fst read = Ret (Normal tt)
  /\ isLoading (ui (snd read)) = false
  /\ exists back a,
       messages (ui (snd read)) = [back; a]
       /\ role back = assistant /\ content back = WELCOME_BACK
       /\ role a = assistant
       /\ (failed o -> content a = APOLOGY)
       /\ (forall response data,
             o = Normal response -> ok response = true ->
             parsed response = Normal data ->
             content a = Relay.res_message data).
Proof.
  intros Ha. start_send Ha. unfold clearChat. run_prog.
  destruct o as [response|e]; run_prog;
    [destruct (parsed response) as [data|e] eqn:Ep; run_prog;
     [destruct (ok response) eqn:Eo; run_prog|]|];
    (split; [reflexivity|]); (split; [reflexivity|]);
    do 2 eexists; (split; [reflexivity|]);
    do 3 (split; [reflexivity|]); reply_cases.
Qed.

(** X10. The chat is rendered exactly when there is a session: without
    one the component returns the sign-in notice, with one it returns the
    chat.  In the chat the send button is enabled exactly when a send of the
    input box would be accepted, that is, when Enter would send; it is
    disabled exactly when such a send returns at the guard. *)
Theorem render_send_button (c : State) :
  render None c = None
  /\ forall s : Relay.Session,
       exists v,
         render (Some s) c = Some v
         /\ (sendDisabled v = false <-> accepted c None)
         /\ (sendDisabled v = true <-> sendMessage c None = Ret (Normal tt)).
Proof.
  split; [reflexivity|]. intros s. eexists. split; [reflexivity|].
  cbn [sendDisabled]. unfold accepted, sendMessage. cbn [or_else].
  destruct (truthy (trim (inputMessage c))), (isLoading c); cbn [negb orb];
    split; split; intros H; try reflexivity; try discriminate H;
    try (destruct H; discriminate); split; reflexivity.
Qed.

(** *** The page over time *)

Lemma last_turn_app (l : list Message) (m : Message) :
  last_turn (l ++ [m]) = Some m.
Proof.
  induction l as [|a l IH]; [reflexivity|].
  cbn [app last_turn]. destruct (l ++ [m]) eqn:E.
  - destruct l; discriminate E.
  - exact IH.
Qed.

Lemma no_two_users_app (l : list Message) (m : Message) :
  no_two_users (l ++ [m])
  = no_two_users l
    && negb (match last_turn l with
             | Some x => is_user x
             | None => false
             end && is_user m).
Proof.
  induction l as [|a l IH]; [reflexivity|].
  destruct l as [|b l].
  - cbn. now rewrite !andb_true_r.
  - change ((a :: b :: l) ++ [m]) with (a :: (b :: l) ++ [m]).
    change (no_two_users (a :: (b :: l) ++ [m]))
      with (negb (is_user a && is_user b) && no_two_users ((b :: l) ++ [m])).
    rewrite IH.
    change (no_two_users (a :: b :: l))
      with (negb (is_user a && is_user b) && no_two_users (b :: l)).
    change (last_turn (a :: b :: l)) with (last_turn (b :: l)).
    now rewrite andb_assoc.
Qed.

Lemma well_formed_app_assistant (l : list Message) (a : Message) :
  well_formed l -> role a = assistant ->
  well_formed (l ++ [a]) /\ ends_with_assistant (l ++ [a]) = true.
Proof.
  intros [(f & r & -> & Hf & Hid) Hn] Ha.
  assert (Hu : is_user a = false) by (unfold is_user; now rewrite Ha).
  split; [split|].
  - exists f, (r ++ [a]). repeat split; assumption.
  - rewrite no_two_users_app, Hn, Hu, andb_false_r. reflexivity.
  - unfold ends_with_assistant. rewrite last_turn_app, Hu. reflexivity.
Qed.

Lemma well_formed_app_user (l : list Message) (u : Message) :
  well_formed l -> ends_with_assistant l = true ->
  well_formed (l ++ [u]).
Proof.
  intros [(f & r & -> & Hf & Hid) Hn] He. split.
  - exists f, (r ++ [u]). repeat split; assumption.
  - rewrite no_two_users_app, Hn. unfold ends_with_assistant in He.
    destruct (last_turn (f :: r)) as [x|]; [|discriminate He].
    apply negb_true_iff in He. rewrite He. reflexivity.
Qed.

Ltac show_replied :=
  eexists; (split; [|split; [reflexivity|reflexivity]]); reflexivity.

(** The first turn of an accepted send, in any world: it suspends on the
    fetch of the chat request, having appended the user turn, emptied the
    input box and set the pending flag. *)
Lemma send_turn (clock : nat -> N) (c : State) (messageText : option jsstring)
    (w : World) :
  accepted c messageText ->
  exists k u w1,
    turn clock (sendMessage c messageText) w
    = (Vis (Fetch (js "/api/chat/medical") (chat_request c messageText)) k, w1)
    /\ ui w1 = {| messages := messages (ui w) ++ [u];
                  inputMessage := [];
                  isLoading := true |}
    /\ role u = user
    /\ requests w1 = requests w
    /\ awaiting_fetch clock
         (Vis (Fetch (js "/api/chat/medical") (chat_request c messageText)) k).
Proof.
  intros Ha. unfold chat_request. start_send Ha.
  do 3 eexists. split; [reflexivity|]. split; [reflexivity|].
  split; [reflexivity|]. split; [reflexivity|].
  do 3 eexists. split; [reflexivity|].
  intros o w2. destruct o as [response|e]; run_prog.
  - right. eexists. split; [reflexivity|].
    do 2 eexists. split; [reflexivity|].
    intros w3.
    destruct (parsed response) as [data|e]; run_prog;
      [destruct (ok response); run_prog|];
      eexists; (split; [reflexivity|]); show_replied.
  - left. eexists. split; [reflexivity|]. show_replied.
Qed.

Lemma chat_request_well_formed (c : State) (messageText : option jsstring) :
  accepted c messageText ->
  well_formed_request (js "/api/chat/medical", chat_request c messageText).
Proof.
  intros [Ht Hl]. repeat split.
  - eexists. split; [reflexivity|]. intros Hb.
    apply trim_falsy_iff_blank in Hb. congruence.
  - eexists. split; [reflexivity|].
    rewrite length_map, slice_last_ten_length. lia.
Qed.

Lemma ui_eta (u : UI) : u = {| world := world u; inflight := inflight u |}.
Proof. destruct u; reflexivity. Qed.

Lemma closed_guard (c : State) (messageText : option jsstring) :
  ~ accepted c messageText -> sendMessage c messageText = Ret (Normal tt).
Proof.
  intros Hn. unfold sendMessage, accepted in *.
  destruct (truthy (trim (or_else messageText (inputMessage c))));
    destruct (isLoading c); try reflexivity.
  exfalso. apply Hn. split; reflexivity.
Qed.

Lemma accepted_dec (c : State) (messageText : option jsstring) :
  accepted c messageText \/ ~ accepted c messageText.
Proof.
  unfold accepted.
  destruct (truthy (trim (or_else messageText (inputMessage c))));
    destruct (isLoading c); try (left; split; reflexivity);
    right; intros [? ?]; discriminate.
Qed.

(** A send keeps the page consistent. *)
Lemma consistent_send (clock : nat -> N) (u : UI)
    (messageText : option jsstring) :
  consistent clock u ->
  consistent clock (start clock (sendMessage (ui (world u)) messageText) u).
Proof.
  intros Hc. destruct (accepted_dec (ui (world u)) messageText) as [Ha|Hn].
  - destruct (send_turn clock (ui (world u)) messageText (world u) Ha)
      as (k & m & w1 & Ht & Hui & Hm & Hreq & Hk).
    unfold start. rewrite Ht. cbn [sent awaited_request finished].
    destruct Hc as (Hwf & Hrs & [(Hfl & Hl & He)|(p & _ & Hl & _)]).
    2:{ destruct Ha as [_ Ha]. congruence. }
    unfold consistent. cbn [world inflight log_request ui requests].
    rewrite Hui, Hreq, Hfl. cbn [messages isLoading app]. split.
    { apply well_formed_app_user; assumption. }
    split.
    { apply Forall_app. split; [exact Hrs|].
      constructor; [|constructor].
      apply chat_request_well_formed, Ha. }
    right. eexists. split; [reflexivity|]. split; [reflexivity|].
    left. exact Hk.
  - rewrite (closed_guard _ _ Hn). unfold start. cbn.
    rewrite <- ui_eta. exact Hc.
Qed.

Lemma consistent_replied (clock : nat -> N) (u : UI) (w' : World) :
  well_formed (messages (ui (world u))) ->
  Forall well_formed_request (requests (world u)) ->
  replied (world u) w' ->
  consistent clock {| world := w'; inflight := [] |}.
Proof.
  intros Hwf Hrs (a & Ha & Hui & Hreq).
  destruct (well_formed_app_assistant _ a Hwf Ha) as [Hwf' He].
  unfold consistent. cbn [world inflight]. rewrite Hui, Hreq.
  cbn [messages isLoading]. split; [exact Hwf'|]. split; [exact Hrs|].
  left. repeat split. exact He.
Qed.

Lemma nth_error_single {A : Type} (p : A) (i : nat) :
  nth_error [p] i = match i with O => Some p | S _ => None end.
Proof. destruct i as [|[|i]]; reflexivity. Qed.

(** The settling of a fetch keeps the page consistent. *)
Lemma consistent_fetch_settled (clock : nat -> N) (u : UI) (i : nat)
    (o : Outcome Response) :
  consistent clock u ->
  consistent clock (resume clock i (settle_fetch o) u).
Proof.
  intros Hc. pose proof Hc as (Hwf & Hrs & [(Hfl & Hl & He)|(p & Hfl & Hl & Hp)]);
    unfold resume; rewrite Hfl.
  - destruct i; exact Hc.
  - rewrite nth_error_single. destruct i as [|i]; [|exact Hc].
    destruct Hp as [(url & init & k & -> & Hk)|(r & k & -> & Hk)].
    + cbn [settle_fetch].
      destruct (Hk o (world u)) as [(w' & Ht & Hr)|(p' & Ht & Hb)];
        rewrite Ht.
      * cbn [finished replace_nth firstn skipn app].
        now apply (consistent_replied clock u w').
      * pose proof Hb as (r & k2 & -> & _).
        cbn [finished replace_nth firstn skipn app].
        split; [exact Hwf|]. split; [exact Hrs|].
        right. eexists. split; [reflexivity|]. split; [exact Hl|].
        right. exact Hb.
    + cbn [settle_fetch turn advance react finished replace_nth firstn skipn
           app].
      split; [exact Hwf|]. split; [exact Hrs|].
      right. eexists. split; [reflexivity|]. split; [exact Hl|].
      right. exists r, k. split; [reflexivity|exact Hk].
Qed.

(** The reading of a body keeps the page consistent. *)
Lemma consistent_body_read (clock : nat -> N) (u : UI) (i : nat) :
  consistent clock u ->
  consistent clock (resume clock i settle_json u).
Proof.
  intros Hc. pose proof Hc as (Hwf & Hrs & [(Hfl & Hl & He)|(p & Hfl & Hl & Hp)]);
    unfold resume; rewrite Hfl.
  - destruct i; exact Hc.
  - rewrite nth_error_single. destruct i as [|i]; [|exact Hc].
    destruct Hp as [(url & init & k & -> & Hk)|(r & k & -> & Hk)].
    + cbn [settle_json turn advance react finished replace_nth firstn skipn
           app].
      split; [exact Hwf|]. split; [exact Hrs|].
      right. eexists. split; [reflexivity|]. split; [exact Hl|].
      left. exists url, init, k. split; [reflexivity|exact Hk].
    + cbn [settle_json].
      destruct (Hk (world u)) as (w' & Ht & Hr). rewrite Ht.
      cbn [finished replace_nth firstn skipn app].
      now apply (consistent_replied clock u w').
Qed.

(** Every event keeps the page consistent. *)
Lemma consistent_dispatch (clock : nat -> N) (u : UI) (ev : Event) :
  consistent clock u -> consistent clock (dispatch clock u ev).
Proof.
  intros Hc. destruct ev as [e|value|message| | |i o|i]; cbn [dispatch].
  - unfold handleKeyPress.
    destruct (str_eqb (key e) (js "Enter") && negb (shiftKey e)); cbn [snd].
    + now apply consistent_send.
    + unfold start. cbn. rewrite <- ui_eta. exact Hc.
  - destruct Hc as (Hwf & Hrs & Hst). unfold start, as_task, onChange.
    run_prog. split; [exact Hwf|]. split; [exact Hrs|]. exact Hst.
  - now apply consistent_send.
  - unfold start. cbn. rewrite <- ui_eta. exact Hc.
  - destruct Hc as (Hwf & Hrs & Hst). unfold start, as_task, clearChat.
    run_prog. split.
    { split; [do 2 eexists; repeat split|reflexivity]. }
    split; [exact Hrs|].
    destruct Hst as [(Hfl & Hl & He)|Hst]; [left|right; exact Hst].
    repeat split; assumption.
  - now apply consistent_fetch_settled.
  - now apply consistent_body_read.
Qed.

Lemma consistent_opened (clock : nat -> N) : consistent clock (opened clock).
Proof.
  split; [split; [do 2 eexists; repeat split|reflexivity]|].
  split; [constructor|]. left. repeat split.
Qed.

Lemma consistent_run (clock : nat -> N) (events : list Event) (u : UI) :
  consistent clock u -> consistent clock (run_events clock events u).
Proof.
  revert u. induction events as [|ev events IH]; intros u Hc; [exact Hc|].
  cbn [run_events fold_left]. apply IH, consistent_dispatch, Hc.
Qed.

Lemma no_two_users_inv (l pre post : list Message) (a b : Message) :
  no_two_users l = true -> l = pre ++ a :: b :: post ->
  role a = user -> role b = user -> False.
Proof.
  revert l. induction pre as [|x pre IH]; intros l Hn -> Ha Hb.
  - cbn in Hn. unfold is_user in Hn. rewrite Ha, Hb in Hn. discriminate Hn.
  - apply (IH (pre ++ a :: b :: post)); try assumption; [|reflexivity].
    cbn [app no_two_users] in Hn. destruct (pre ++ a :: b :: post) eqn:E.
    + destruct pre; discriminate E.
    + apply andb_true_iff in Hn. apply Hn.
Qed.

Lemma last_turn_inv (l : list Message) (m : Message) :
  last_turn l = Some m -> exists init, l = init ++ [m].
Proof.
  induction l as [|a l IH]; [discriminate|].
  destruct l as [|b l].
  - intros [= ->]. exists []. reflexivity.
  - intros H. destruct (IH H) as [init ->]. exists (a :: init). reflexivity.
Qed.

(** An argument that is a string or absent is the argument of
    [sendMessage]; only the click event makes the call throw. *)
Lemma call_sendMessage_cases (c : State) (a : Argument) :
  match a with
  | Absent => call_sendMessage c a = sendMessage c None
  | Text s => call_sendMessage c a = sendMessage c (Some s)
  | ClickEvent => exists e, call_sendMessage c a = Ret (Throw e)
  end.
Proof.
  destruct a as [|s|]; unfold call_sendMessage, textToSend;
    cbn [argument_truthy].
  - reflexivity.
  - destruct (truthy s); reflexivity.
  - eexists. reflexivity.
Qed.

(** X11. Typing and clicking the send button never sends anything.
    [onClick={sendMessage}] passes the click event as [messageText]; it is
    truthy, so it is the text, and the call throws at [trim].  After the
    page is opened, whatever is typed and however often the button is
    clicked, no request has been sent, nothing is in flight and the
    conversation is the one of the opened page. *)
Theorem typing_and_clicking_never_sends (clock : nat -> N)
    (events : list Event) :
  Forall (fun ev => ev = ClickSend \/ exists value, ev = Change value) events ->
  let u := run_events clock events (opened clock) in
  requests (world u) = []
  /\ inflight u = []
  /\ messages (ui (world u)) = messages (ui (mounted clock))
  /\ isLoading (ui (world u)) = false.
Proof.
  intros Hev. cbv zeta.
  assert (G : forall u,
             requests (world u) = [] /\ inflight u = []
             /\ messages (ui (world u)) = messages (ui (mounted clock))
             /\ isLoading (ui (world u)) = false ->
             requests (world (run_events clock events u)) = []
             /\ inflight (run_events clock events u) = []
             /\ messages (ui (world (run_events clock events u)))
                = messages (ui (mounted clock))
             /\ isLoading (ui (world (run_events clock events u))) = false).
  { induction Hev as [|ev events [->|[value ->]] _ IH]; intros u Hu;
      [exact Hu| |]; cbn [run_events fold_left]; apply IH.
    - cbn [dispatch]. unfold start, call_sendMessage, textToSend.
      cbn [argument_truthy call_trim turn advance sent awaited_request
           finished world inflight].
      exact Hu.
    - cbn [dispatch]. unfold start, as_task, onChange. run_prog. exact Hu. }
  apply G. repeat split.
Qed.

(** X12. Whatever happens on the page after it is opened (keys, typing,
    quick actions, clicks, clearing, answers arriving in any order), at
    most one send is in flight, and the pending flag is set exactly when one
    is. *)
Theorem one_send_in_flight (clock : nat -> N) (events : list Event) :
  let u := run_events clock events (opened clock) in
  (length (inflight u) <= 1)%nat
  /\ (isLoading (ui (world u)) = true <-> inflight u <> []).
Proof.
  cbv zeta.
  destruct (consistent_run clock events _ (consistent_opened clock))
    as (_ & _ & [(Hfl & Hl & _)|(p & Hfl & Hl & _)]); rewrite Hfl, Hl.
  - split; [cbn; lia|]. split; [discriminate|congruence].
  - split; [cbn; lia|]. split; [discriminate|reflexivity].
Qed.

(** X13. Whatever happens on the page, the conversation is never empty and
    opens with an assistant turn of id "1"; it never holds two user turns in
    a row; and whenever no request is pending it ends with an assistant
    turn. *)
Theorem conversation_shape (clock : nat -> N) (events : list Event) :
  let l := messages (ui (world (run_events clock events (opened clock)))) in
  (exists first rest,
      l = first :: rest /\ role first = assistant /\ id first = js "1")
  /\ (forall pre a b post,
        l = pre ++ a :: b :: post -> ~ (role a = user /\ role b = user))
  /\ (isLoading (ui (world (run_events clock events (opened clock)))) = false ->
      exists init last, l = init ++ [last] /\ role last = assistant).
Proof.
  cbv zeta.
  destruct (consistent_run clock events _ (consistent_opened clock))
    as ([Hhead Hn] & _ & Hst).
  split; [exact Hhead|]. split.
  - intros pre a b post E [Ha Hb].
    exact (no_two_users_inv _ pre post a b Hn E Ha Hb).
  - intros Hl. destruct Hst as [(_ & _ & He)|(p & _ & Hl' & _)];
      [|congruence].
    unfold ends_with_assistant in He.
    destruct (last_turn _) as [m|] eqn:E; [|discriminate He].
    destruct (last_turn_inv _ _ E) as [init Hi].
    exists init, m. split; [exact Hi|].
    unfold is_user in He. destruct (role m); [discriminate He|reflexivity].
Qed.

(** X14. Every request the page ever sends goes to the chat route by POST,
    carries a text that is not blank, and a history of at most ten turns. *)
Theorem requests_well_formed (clock : nat -> N) (events : list Event) :
  Forall (fun r : jsstring * RequestInit =>
            fst r = js "/api/chat/medical"
            /\ method (snd r) = js "POST"
            /\ (exists text,
                  Relay.message (body (snd r)) = Some text /\ ~ blank text)
            /\ (exists history,
                  Relay.conversationHistory (body (snd r)) = Some history
                  /\ (length history <= 10)%nat))
         (requests (world (run_events clock events (opened clock)))).
Proof.
  destruct (consistent_run clock events _ (consistent_opened clock))
    as (_ & Hrs & _).
  exact Hrs.
Qed.

Lemma fetch_settled_cases (clock : nat -> N) (u : UI)
    (p : Prog ClientE (Outcome unit)) (o : Outcome Response) :
  inflight u = [p] ->
  awaiting_fetch clock p \/ awaiting_body clock p ->
  (inflight (resume clock 0 (settle_fetch o) u) = []
   /\ replied (world u) (world (resume clock 0 (settle_fetch o) u)))
  \/ (world (resume clock 0 (settle_fetch o) u) = world u
      /\ exists p', inflight (resume clock 0 (settle_fetch o) u) = [p']
                    /\ awaiting_body clock p').
Proof.
  intros Hfl Hp. unfold resume. rewrite Hfl. cbn [nth_error].
  destruct Hp as [(url & init & k & -> & Hk)|(r & k & -> & Hk)].
  - cbn [settle_fetch].
    destruct (Hk o (world u)) as [(w' & Ht & Hr)|(p' & Ht & Hb)]; rewrite Ht.
    + left. split; [reflexivity|exact Hr].
    + right. pose proof Hb as (r & k2 & -> & _).
      split; [reflexivity|]. eexists. split; [reflexivity|exact Hb].
  - right. cbn [settle_fetch turn advance react finished replace_nth firstn
                skipn app world inflight].
    split; [reflexivity|]. eexists. split; [reflexivity|].
    exists r, k. split; [reflexivity|exact Hk].
Qed.

Lemma body_read_cases (clock : nat -> N) (u : UI)
    (p : Prog ClientE (Outcome unit)) :
  inflight u = [p] -> awaiting_body clock p ->
  inflight (resume clock 0 settle_json u) = []
  /\ replied (world u) (world (resume clock 0 settle_json u)).
Proof.
  intros Hfl (r & k & -> & Hk). unfold resume. rewrite Hfl. cbn [nth_error].
  cbn [settle_json]. destruct (Hk (world u)) as (w' & Ht & Hr). rewrite Ht.
  split; [reflexivity|exact Hr].
Qed.

Lemma body_read_idle (clock : nat -> N) (u : UI) :
  inflight u = [] -> resume clock 0 settle_json u = u.
Proof.
  intros Hfl. unfold resume. rewrite Hfl. reflexivity.
Qed.

(** X15. A pending request always resolves: from any state the page can
    reach with the pending flag set, once the fetch in flight settles, with
    any outcome, and the body is read, nothing is in flight, the flag is
    cleared and the conversation has exactly one more turn, an assistant
    turn. *)
Theorem pending_resolves (clock : nat -> N) (events : list Event)
    (o : Outcome Response) :
  let u := run_events clock events (opened clock) in
  let u' := run_events clock [FetchSettled 0 o; BodyRead 0] u in
  isLoading (ui (world u)) = true ->
  inflight u' = []
  /\ isLoading (ui (world u')) = false
  /\ exists a, role a = assistant
               /\ messages (ui (world u'))
                  = messages (ui (world u)) ++ [a].
Proof.
  cbv zeta. intros Hl.
  destruct (consistent_run clock events _ (consistent_opened clock))
    as (_ & _ & [(_ & Hl' & _)|(p & Hfl & _ & Hp)]); [congruence|].
  set (u := run_events clock events (opened clock)) in *.
  cbn [run_events fold_left dispatch].
  destruct (fetch_settled_cases clock u p o Hfl Hp)
    as [(Hfl1 & (a & Ha & Hui & _))|(Hw & p' & Hfl1 & Hb)].
  - rewrite (body_read_idle clock _ Hfl1), Hfl1, Hui.
    cbn [messages isLoading]. repeat split.
    exists a. split; [exact Ha|reflexivity].
  - destruct (body_read_cases clock _ p' Hfl1 Hb)
      as (Hfl2 & (a & Ha & Hui & _)).
    rewrite Hfl2, Hui, Hw. cbn [messages isLoading]. repeat split.
    exists a. split; [exact Ha|reflexivity].
Qed.

(** X17. What the remote service is asked after an accepted send, when the
    user is signed in on the server and the key is configured: one call,
    whose prompt is the system instruction, the last ten turns of the
    conversation as role and content, and the text as the user turn; at most
    twelve messages. *)
Theorem prompt_of_send (env : Relay.ProcessEnv) (srv : Relay.Remote)
    (c : State) (messageText : option jsstring) :
  accepted c messageText ->
  Relay.session_of srv <> None ->
  truthy_opt (Relay.OPENAI_API_KEY env) = true ->
  let req := {| Relay.method := method (chat_request c messageText);
                Relay.body := body (chat_request c messageText) |} in
  exists params,
    filter Relay.is_remote_call (snd (Relay.run srv (Relay.handler env req)))
    = [Relay.RemoteCall params]
    /\ Relay.messages params
       = {| Relay.role := js "system";
            Relay.content := Relay.MEDICAL_SYSTEM_PROMPT |}
         :: map project (slice (-10) (messages c))
         ++ [ {| Relay.role := js "user";
                 Relay.content := or_else messageText (inputMessage c) |} ]
    /\ length (Relay.messages params)
       = (Nat.min 10 (length (messages c)) + 2)%nat
    /\ (length (Relay.messages params) <= 12)%nat.
Proof.
  intros Ha Hs Hk req. pose proof (accepted_nonempty _ _ Ha) as Hne.
  rewrite handler_run. subst req.
  cbn [chat_request method body Relay.method Relay.body Relay.message].
  replace (str_eqb (js "POST") (js "POST")) with true by reflexivity.
  cbn [negb]. unfold history_of. cbn [Relay.body Relay.conversationHistory].
  destruct (or_else messageText (inputMessage c)) as [|c0 text0] eqn:Et;
    [congruence|].
  destruct (Relay.session_of srv); [|congruence].
  rewrite Hk. cbn [negb].
  assert (Hlen : length (Relay.messages
                   (call_params (c0 :: text0)
                      (map project (slice (-10) (messages c)))))
                 = (Nat.min 10 (length (messages c)) + 2)%nat).
  { cbn [call_params Relay.messages length].
    rewrite length_app, length_map, slice_last_ten_length. cbn [length]. lia. }
  exists (call_params (c0 :: text0) (map project (slice (-10) (messages c)))).
  split.
  { relayed_cases srv; reflexivity. }
  split; [reflexivity|]. split; [exact Hlen|]. rewrite Hlen. lia.
Qed.

(** *** Identifiers *)

Lemma digits_inj (d d' : Decimal.uint) : digits d = digits d' -> d = d'.
Proof.
  revert d'. induction d; intros d'; destruct d'; cbn [digits]; intros H;
    try discriminate H; try reflexivity; injection H as H; f_equal; auto.
Qed.

Lemma toString_inj (n m : N) : toString n = toString m -> n = m.
Proof.
  intros H. apply digits_inj in H.
  rewrite <- (DecimalN.Unsigned.of_to n), <- (DecimalN.Unsigned.of_to m), H.
  reflexivity.
Qed.

(** X16. With a clock that does not run backwards, the two turns an
    accepted send appends get different ids, also when every reading falls
    in the same millisecond: the reply's id is a later reading plus one. *)
Theorem exchange_ids_differ (clock : nat -> N)
    (net : jsstring -> RequestInit -> Outcome Response) (w : World)
    (messageText : option jsstring) :
  (forall n, clock n <= clock (S n)) ->
  accepted (ui w) messageText ->
  exists u a,
    messages (ui (snd (perform clock net (sendMessage (ui w) messageText) w)))
    = messages (ui w) ++ [u; a]
    /\ id u <> id a.
Proof.
  intros Hmono Ha.
  assert (Hlt : clock (ticks w) <> clock (S (S (ticks w))) + 1).
  { pose proof (Hmono (ticks w)). pose proof (Hmono (S (ticks w))). lia. }
  start_send Ha.
  match goal with
  | |- context [net ?u ?i] => destruct (net u i) as [response|e]
  end; run_prog;
    [destruct (parsed response) as [data|e]; run_prog;
     [destruct (ok response); run_prog|]|];
    do 2 eexists; rewrite <- !app_assoc; cbn [app];
    (split; [reflexivity|]); cbn [id]; intros E; apply toString_inj in E;
    contradiction.
Qed.

(** *** The further theorems at sample inputs *)

Lemma route_status_of_send_witness :
  accepted (ui fifteen_turns) (Some headache)
  /\ exists response,
       EndToEnd.route with_key signed_in_over_quota (js "/api/chat/medical")
         (chat_request (ui fifteen_turns) (Some headache))
       = Normal response
       /\ In (status response) [200; 401; 429; 500]%Z.
Proof.
  assert (H : accepted (ui fifteen_turns) (Some headache))
    by (split; reflexivity).
  split; [exact H|].
  destruct (route_status_of_send with_key signed_in_over_quota
              (ui fifteen_turns) (Some headache) (js "/api/chat/medical") H)
    as (response & data & Hr & _ & Hs).
  exists response. split; assumption.
Defined.

Lemma send_through_route_witness :
  accepted (ui fifteen_turns) (Some headache)
  /\ exists a,
       last_turn (messages (ui (snd (perform clock0
                    (EndToEnd.route with_key (answering (js "Try resting.")))
                    (sendMessage (ui fifteen_turns) (Some headache))
                    fifteen_turns))))
       = Some a
       /\ content a = js "Try resting.".
Proof.
  assert (H : accepted (ui fifteen_turns) (Some headache))
    by (split; reflexivity).
  split; [exact H|].
  destruct (send_through_route clock0 with_key (answering (js "Try resting."))
              fifteen_turns (Some headache) H)
    as (u & a & Hm & _ & _ & _ & Hc & _).
  exists a. split.
  - rewrite Hm. change [u; a] with ([u] ++ [a]).
    rewrite app_assoc. apply last_turn_app.
  - rewrite Hc. reflexivity.
Defined.

Lemma sendMessage_blocks_sends_witness :
  accepted (ui fifteen_turns) (Some headache)
  /\ isLoading (ui (snd (turn clock0
                           (sendMessage (ui fifteen_turns) (Some headache))
                           fifteen_turns)))
     = true.
Proof.
  assert (H : accepted (ui fifteen_turns) (Some headache))
    by (split; reflexivity).
  split; [exact H|].
  destruct (sendMessage_blocks_sends clock0 fifteen_turns (Some headache) H)
    as (_ & Hl & _).
  exact Hl.
Defined.

Lemma clearChat_keeps_late_reply_witness :
  let sent := turn clock0 (sendMessage (ui fifteen_turns) (Some headache))
                   fifteen_turns in
  let cleared := snd (turn clock0 clearChat (snd sent)) in
  let fetched := turn clock0 (settle_fetch (Throw NonError) (fst sent))
                      cleared in
  let read := turn clock0 (settle_json (fst fetched)) (snd fetched) in
  accepted (ui fifteen_turns) (Some headache)
  /\ exists back a, messages (ui (snd read)) = [back; a].
Proof.
  assert (H : accepted (ui fifteen_turns) (Some headache))
    by (split; reflexivity).
  split; [exact H|].
  destruct (clearChat_keeps_late_reply clock0 fifteen_turns (Some headache)
              (Throw NonError) H)
    as (_ & _ & back & a & Hm & _).
  exists back, a. exact Hm.
Defined.

Lemma pending_resolves_witness :
  isLoading (ui (world (run_events clock0 [QuickAction headache]
                          (opened clock0)))) = true
  /\ isLoading (ui (world (run_events clock0
                             [FetchSettled 0 (Throw NonError); BodyRead 0]
                             (run_events clock0 [QuickAction headache]
                                (opened clock0))))) = false.
Proof.
  assert (H : isLoading (ui (world (run_events clock0 [QuickAction headache]
                                      (opened clock0)))) = true)
    by reflexivity.
  split; [exact H|].
  destruct (pending_resolves clock0 [QuickAction headache] (Throw NonError) H)
    as (_ & Hl & _).
  exact Hl.
Defined.

Lemma exchange_ids_differ_witness :
  (forall n, clock0 n <= clock0 (S n))
  /\ accepted (ui fifteen_turns) (Some headache)
  /\ exists u a,
       messages (ui (snd (perform clock0 offline
                            (sendMessage (ui fifteen_turns) (Some headache))
                            fifteen_turns)))
       = messages (ui fifteen_turns) ++ [u; a]
       /\ id u <> id a.
Proof.
  assert (Hc : forall n, clock0 n <= clock0 (S n))
    by (intros n; unfold clock0; lia).
  assert (H : accepted (ui fifteen_turns) (Some headache))
    by (split; reflexivity).
  split; [exact Hc|]. split; [exact H|].
  exact (exchange_ids_differ clock0 offline fifteen_turns (Some headache) Hc H).
Defined.

Lemma prompt_of_send_witness :
  accepted (ui fifteen_turns) (Some headache)
  /\ Relay.session_of signed_in_over_quota <> None
  /\ truthy_opt (Relay.OPENAI_API_KEY with_key) = true
  /\ exists params,
       filter Relay.is_remote_call
         (snd (Relay.run signed_in_over_quota
                 (Relay.handler with_key
                    {| Relay.method :=
                         method (chat_request (ui fifteen_turns)
                                              (Some headache));
                       Relay.body :=
                         body (chat_request (ui fifteen_turns)
                                            (Some headache)) |})))
       = [Relay.RemoteCall params]
       /\ length (Relay.messages params) = 12%nat.
Proof.
  assert (H : accepted (ui fifteen_turns) (Some headache))
    by (split; reflexivity).
  assert (Hs : Relay.session_of signed_in_over_quota <> None) by discriminate.
  split; [exact H|]. split; [exact Hs|]. split; [reflexivity|].
  destruct (prompt_of_send with_key signed_in_over_quota (ui fifteen_turns)
              (Some headache) H Hs eq_refl)
    as (params & Hf & _ & Hl & _).
  exists params. split; [exact Hf|]. rewrite Hl. reflexivity.
Defined.

Lemma typing_and_clicking_never_sends_witness :
  Forall (fun ev => ev = ClickSend \/ exists value, ev = Change value)
         [Change (js "I have a headache"); ClickSend; ClickSend]
  /\ requests (world (run_events clock0
                        [Change (js "I have a headache"); ClickSend; ClickSend]
                        (opened clock0))) = [].
Proof.
  assert (H : Forall (fun ev => ev = ClickSend \/ exists value, ev = Change value)
                     [Change (js "I have a headache"); ClickSend; ClickSend]).
  { constructor; [right; eexists; reflexivity|].
    constructor; [left; reflexivity|].
    constructor; [left; reflexivity|]. constructor. }
  split; [exact H|].
  destruct (typing_and_clicking_never_sends clock0 _ H) as (Hr & _).
  exact Hr.
Defined.

Lemma handler_ok_iff_witness :
  fst (Relay.run signed_in_answering
         (Untyped.handler with_key (js "POST")
            (Untyped.Body (Some headache) Untyped.Undefined)))
  = Normal {| Relay.status := 200;
              Relay.json := {| Relay.res_message := js "Try resting.";
                               Relay.res_usage := Relay.usage two_choices |} |}
  /\ ~ answered_200
         (fst (Relay.run signed_in_answering
                 (Untyped.handler with_key (js "POST") null_history))).
Proof.
  split.
  - destruct (handler_ok_iff with_key signed_in_answering (js "POST")
                (Untyped.Body (Some headache) Untyped.Undefined))
      as [Hok _].
    assert (Hp : passes_checks with_key signed_in_answering (js "POST")
                   (Untyped.Body (Some headache) Untyped.Undefined)
                   headache Untyped.Undefined)
      by (repeat split; discriminate).
    assert (Hh : history_is Untyped.Undefined [])
      by (left; split; reflexivity).
    assert (Hn : js "Try resting." <> []) by discriminate.
    exact (Hok headache Untyped.Undefined [] two_choices _ _ _
             (js "Try resting.") Hp Hh eq_refl eq_refl eq_refl eq_refl Hn).
  - intros Ha.
    destruct (handler_ok_iff with_key signed_in_answering (js "POST")
                null_history) as [_ Honly].
    destruct (Honly Ha)
      as (msg & h & l & _ & _ & _ & _ & _ & (_ & _ & Hb & _) & Hh & _).
    injection Hb as _ <-.
    destruct Hh as [[Hh _]|Hh]; discriminate Hh.
Defined.

Lemma handler_effects_witness :
  In (Relay.RemoteCall (call_params headache []))
     (snd (Relay.run signed_in_answering
             (Untyped.handler with_key (js "POST")
                (Untyped.Body (Some headache) Untyped.Undefined))))
  /\ forall params,
       ~ In (Relay.RemoteCall params)
            (snd (Relay.run signed_in_answering
                    (Untyped.handler with_key (js "POST") null_entry))).
Proof.
  split.
  - destruct (handler_effects with_key signed_in_answering (js "POST")
                (Untyped.Body (Some headache) Untyped.Undefined))
      as (_ & _ & Hcall).
    apply Hcall. exists headache, Untyped.Undefined, [].
    split; [repeat split; discriminate|].
    split; [left; split; reflexivity|reflexivity].
  - intros params Hin.
    destruct (handler_effects with_key signed_in_answering (js "POST")
                null_entry) as (_ & _ & Hcall).
    apply Hcall in Hin.
    destruct Hin as (msg & h & l & (_ & _ & Hb & _) & Hh & _).
    injection Hb as _ <-.
    destruct Hh as [[Hh _]|Hh]; [discriminate Hh|].
    injection Hh as Hh. destruct l as [|x [|y l]]; discriminate Hh.
Defined.

Lemma handler_logs_iff_witness :
  exists label e,
    In (Relay.Logged label e)
       (snd (Relay.run signed_in_answering
               (Untyped.handler with_key (js "POST") null_history))).
Proof.
  destruct (handler_logs_iff with_key signed_in_answering (js "POST")
              null_history) as [Hiff _].
  apply Hiff. split.
  - exists headache, Untyped.Null. repeat split; discriminate.
  - intros (res & Hr & Hst). vm_compute in Hr. injection Hr as <-.
    discriminate Hst.
Defined.
